(** * Realtor Media API: a shallow embedding of [main.py]

    The route handlers of the service ([test_database], [upload_media],
    [list_media]) are embedded as computations in a small state and
    exception monad.  Python values and exceptions, the functions of the
    Python standard library the handlers call ([str.startswith],
    [os.path.splitext], [os.path.join], [uuid.uuid4().hex], [list.sort]),
    the file system and the process environment are modelled explicitly.
    The document store of module [database] and the schema of module
    [schemas] are an interface ([Database]): the handlers are verified
    against every implementation of it. *)

From Stdlib Require Import ZArith String Ascii List Lia Permutation Sorted DecimalString.
From stdpp Require Import gmap strings list sorting.

Open Scope Z_scope.

(** ** Python exceptions *)

Inductive exn : Type :=
  | HTTPException (status_code : Z) (detail : string)
  | ImportError (msg : string)
  | OSError (msg : string)
  | TypeError (msg : string)
  | ValidationError (msg : string)
  | Exception (msg : string).

Definition str_of_Z (z : Z) : string := NilZero.string_of_int (Z.to_int z).

(** [str(e)]: starlette renders an [HTTPException] as [status: detail], the
    other classes render their message. *)
Definition str_exn (e : exn) : string :=
  match e with
  | HTTPException c d => str_of_Z c +:+ ": " +:+ d
  | ImportError m | OSError m | TypeError m | ValidationError m | Exception m => m
  end.

Definition is_HTTPException (e : exn) : bool :=
  match e with HTTPException _ _ => true | _ => false end.

Definition is_ImportError (e : exn) : bool :=
  match e with ImportError _ => true | _ => false end.

(** ** State and exception monad

    A computation runs on a state and either raises or returns; the state
    reached when it raises is kept, as the effects of a Python statement
    are when an exception leaves it. *)

Definition M (S A : Type) : Type := S -> (exn + A) * S.

Definition ret {S A} (a : A) : M S A := fun s => (inr a, s).

Definition raise {S A} (e : exn) : M S A := fun s => (inl e, s).

Definition bind {S A B} (m : M S A) (k : A -> M S B) : M S B :=
  fun s => match m s with
           | (inl e, s') => (inl e, s')
           | (inr a, s') => k a s'
           end.

(** [try: body / except Exception as e: handler e] *)
Definition try_except {S A} (body : M S A) (handler : exn -> M S A) : M S A :=
  fun s => match body s with
           | (inl e, s') => handler e s'
           | (inr a, s') => (inr a, s')
           end.

Definition get {S} : M S S := fun s => (inr s, s).

Definition modify {S} (f : S -> S) : M S unit := fun s => (inr tt, f s).

Declare Scope py_scope.
Delimit Scope py_scope with py.
Notation "x <- m ;; k" := (bind m (fun x => k))
  (at level 100, m at next level, right associativity) : py_scope.
Notation "m ;;; k" := (bind m (fun _ => k))
  (at level 100, right associativity) : py_scope.

(** ** Python values

    The values a stored document holds under its keys. *)

Inductive pyval : Type :=
  | VNone
  | VBool (b : bool)
  | VInt (z : Z)
  | VStr (s : string)
  | VDatetime (micros : Z)
  | VObjectId (hex : string).

(** Truth value of an object in a condition. *)
Definition truthy (v : pyval) : bool :=
  match v with
  | VNone => false
  | VBool b => b
  | VInt z => negb (z =? 0)
  | VStr s => negb (String.eqb s "")
  | VDatetime _ | VObjectId _ => true
  end.

Definition is_str (v : pyval) : bool :=
  match v with VStr _ => true | _ => false end.

Definition as_int (v : pyval) : option Z :=
  match v with
  | VInt z => Some z
  | VBool b => Some (if b then 1 else 0)
  | _ => None
  end.

(** [a < b]: defined between numbers, between strings, between datetimes
    and between object ids; a [TypeError] otherwise, in particular as soon
    as one side is [None]. *)
Definition py_lt (a b : pyval) : exn + bool :=
  match a, b with
  | VStr s, VStr t => inr (String.ltb s t)
  | VDatetime s, VDatetime t => inr (s <? t)
  | VObjectId s, VObjectId t => inr (String.ltb s t)
  | _, _ =>
      match as_int a, as_int b with
      | Some x, Some y => inr (x <? y)
      | _, _ => inl (TypeError "'<' not supported between instances")
      end
  end.

(** [str(v)]; [str_datetime] is the text of a datetime. *)
Definition py_str (str_datetime : Z -> string) (v : pyval) : string :=
  match v with
  | VNone => "None"
  | VBool b => if b then "True" else "False"
  | VInt z => str_of_Z z
  | VStr s => s
  | VDatetime t => str_datetime t
  | VObjectId h => h
  end.

(** ** Strings and paths *)

(** [s.startswith(p)] *)
Definition startswith (s p : string) : bool := String.prefix p s.

(** [a or b] on strings: the empty string is falsy. *)
Definition str_or (a b : string) : string :=
  match a with EmptyString => b | _ => a end.

(** [a or b] where [a] may be [None]. *)
Definition opt_str_or (a : option string) (b : string) : string :=
  match a with Some s => str_or s b | None => b end.

(** [s[:n]] and [s[n:]] for [0 <= n]. *)
Fixpoint str_take (n : nat) (s : string) : string :=
  match n, s with
  | S k, String c s' => String c (str_take k s')
  | _, _ => EmptyString
  end.

Fixpoint str_drop (n : nat) (s : string) : string :=
  match n, s with
  | S k, String _ s' => str_drop k s'
  | _, _ => s
  end.

(** [s.rfind(c)] for a one-character needle: the last index of [c], or -1.
    [i] is the index of the head of [s]. *)
Fixpoint rfind_from (c : ascii) (s : string) (i : Z) : Z :=
  match s with
  | EmptyString => -1
  | String a s' =>
      let r := rfind_from c s' (i + 1) in
      if 0 <=? r then r else if Ascii.eqb a c then i else -1
  end.

Definition rfind (s : string) (c : ascii) : Z := rfind_from c s 0.

(** The [while filenameIndex < dotIndex] loop of [genericpath._splitext],
    with [n] the number of iterations left ([dotIndex - filenameIndex]):
    [true] when it reaches a character that is not a dot, i.e. when the
    function returns from inside the loop. *)
Fixpoint splitext_loop (p : string) (filenameIndex : nat) (n : nat) : bool :=
  match n with
  | O => false
  | S k =>
      if negb (String.eqb (str_take 1 (str_drop filenameIndex p)) ".")
      then true
      else splitext_loop p (S filenameIndex) k
  end.

(** [os.path.splitext] ([posixpath]: [sep = "/"], no [altsep],
    [extsep = "."]). *)
Definition splitext (p : string) : string * string :=
  let sepIndex := rfind p "/"%char in
  let dotIndex := rfind p "."%char in
  if (sepIndex <? dotIndex)
     && splitext_loop p (Z.to_nat (sepIndex + 1)) (Z.to_nat (dotIndex - (sepIndex + 1)))
  then (str_take (Z.to_nat dotIndex) p, str_drop (Z.to_nat dotIndex) p)
  else (p, EmptyString).

Definition endswith_slash (a : string) : bool :=
  String.eqb (str_drop (String.length a - 1) a) "/".

(** [os.path.join(a, b)] ([posixpath]). *)
Definition path_join (a b : string) : string :=
  if startswith b "/" then b
  else if String.eqb a "" || endswith_slash a then a +:+ b
  else a +:+ "/" +:+ b.

(** ** [uuid.uuid4().hex] *)

(** [UUID(bytes=os.urandom(16), version=4).int]: the 128 random bits with
    the variant and version fields overwritten. *)
Definition uuid4_int (random : Z) : Z :=
  let i := random mod 2 ^ 128 in
  let i := Z.ldiff i (Z.shiftl 0xc000 48) in
  let i := Z.lor i (Z.shiftl 0x8000 48) in
  let i := Z.ldiff i (Z.shiftl 0xf000 64) in
  Z.lor i (Z.shiftl 4 76).

Definition hex_digit (d : Z) : ascii :=
  nth (Z.to_nat d) (list_ascii_of_string "0123456789abcdef") "0"%char.

(** ['%0nx' % z] for [0 <= z < 16 ^ n]. *)
Fixpoint hex_fixed (n : nat) (z : Z) (acc : string) : string :=
  match n with
  | O => acc
  | S k => hex_fixed k (z / 16) (String (hex_digit (z mod 16)) acc)
  end.

Definition uuid4_hex (random : Z) : string := hex_fixed 32 (uuid4_int random) "".

Definition is_hex (c : ascii) : bool :=
  existsb (Ascii.eqb c) (list_ascii_of_string "0123456789abcdef").

(** ** [list.sort(key=..., reverse=...)]

    The sort compares with [<] only and is stable; a comparison that
    raises ends it and leaves the list in the order reached so far.  It is
    modelled by insertion into a sorted run, the run being the front of the
    list.  With [reverse] the list is reversed, sorted and reversed again,
    also when the sort raised.  The key function of the handler is pure, so
    it is applied at each comparison. *)

Section ListSort.
Context {A : Type} (key : A -> pyval).

(** [x] goes in front of the first element it is smaller than. *)
Fixpoint insort (x : A) (run : list A) : exn + list A :=
  match run with
  | [] => inr [x]
  | y :: ys =>
      match py_lt (key x) (key y) with
      | inl e => inl e
      | inr true => inr (x :: run)
      | inr false =>
          match insort x ys with
          | inl e => inl e
          | inr r => inr (y :: r)
          end
      end
  end.

Fixpoint sort_pass (run todo : list A) : (exn + unit) * list A :=
  match todo with
  | [] => (inr tt, run)
  | x :: rest =>
      match insort x run with
      | inl e => (inl e, run ++ todo)
      | inr run' => sort_pass run' rest
      end
  end.

Definition list_sort (reverse : bool) : M (list A) unit :=
  fun l =>
    let l := if reverse then rev l else l in
    let '(r, l) := sort_pass [] l in
    (r, if reverse then rev l else l).

End ListSort.

(** ** Requests, records, the world *)

Module UploadFile.
(** What the handler reads of starlette's [UploadFile]: the multipart
    part's file name and declared content type (both may be absent), the
    length the client declared for the part, and the payload. *)
Record t : Type := mk {
  filename : option string;
  content_type : option string;
  size : option Z;
  payload : list Byte.byte;
}.
End UploadFile.

Inductive media_kind : Type := Video | Image | Other.

Definition kind_eqb (a b : media_kind) : bool :=
  match a, b with
  | Video, Video | Image, Image | Other, Other => true
  | _, _ => false
  end.

Definition kind_str (k : media_kind) : string :=
  match k with Video => "video" | Image => "image" | Other => "other" end.

Module Media.
(** The record built by [Media(title=..., ...)], with the keyword
    arguments of the call. *)
Record t : Type := mk {
  title : string;
  description : option string;
  kind : media_kind;
  filename : string;
  url : string;
  size : Z;
  content_type : string;
}.
End Media.

Module Uploaded.
(** The response body of a successful upload. *)
Record t : Type := mk {
  id : string;
  message : string;
  item : Media.t;
}.
End Uploaded.

Module Listed.
(** The response body of the listing. *)
Record t : Type := mk {
  items : list (gmap string pyval);
}.
End Listed.

(** Effects on the outside, most recent first. *)
Inductive event : Type :=
  | EvWrite (path : string)
  | EvRemove (path : string)
  | EvCreateDocument (collection_name : string) (doc : Media.t).

(** The document store adapter of module [database] and the validation of
    [schemas.Media]: collaborators of the handlers.  A call returns or
    raises, and may change the store either way. *)
Class Database (Store : Type) : Type := {
  create_document : string -> Media.t -> Store -> (exn + string) * Store;
  get_documents :
    string -> gmap string pyval -> Z -> Store -> (exn + list (gmap string pyval)) * Store;
  Media_validate : Media.t -> option exn;
}.

Record World (Store : Type) : Type := mkWorld {
  fs : gmap string (list Byte.byte);
  environ : gmap string string;
  store : Store;
  trace : list event;
}.
Arguments mkWorld {Store}.
Arguments fs {Store}.
Arguments environ {Store}.
Arguments store {Store}.
Arguments trace {Store}.

(** What the platform answers during one request: the working directory
    the process was started in, the 16 bytes [os.urandom] hands to
    [uuid4], the text of a datetime, and which imports and system calls
    fail ([None]: the call succeeds).  [write_fault] gives the number of
    bytes that reached the file before the error. *)
Record Host : Type := mkHost {
  cwd : string;
  urandom16 : Z;
  str_datetime : Z -> string;
  import_fault : string -> option exn;
  open_fault : string -> option exn;
  write_fault : string -> option (nat * exn);
  remove_fault : string -> option exn;
}.

(** ** The handlers *)

Section Handlers.
Context {Store : Type} `{Database Store} (host : Host).

Definition log (ev : event) : M (World Store) unit :=
  modify (fun w => mkWorld (fs w) (environ w) (store w) (ev :: trace w)).

Definition set_file (path : string) (bytes : list Byte.byte) : M (World Store) unit :=
  modify (fun w => mkWorld (<[path := bytes]> (fs w)) (environ w) (store w) (trace w)).

Definition UPLOAD_DIR : string := path_join (cwd host) "uploads".

(** [from module import ...] *)
Definition import (module : string) : M (World Store) unit :=
  match import_fault host module with
  | Some e => raise e
  | None => ret tt
  end.

(** [with open(path, "wb") as f: f.write(contents)] *)
Definition write_file (path : string) (contents : list Byte.byte) : M (World Store) unit :=
  (match open_fault host path with
   | Some e => raise e
   | None =>
       log (EvWrite path) ;;;
       match write_fault host path with
       | Some (n, e) => set_file path (take n contents) ;;; raise e
       | None => set_file path contents
       end
   end)%py.

(** [os.path.getsize(path)] *)
Definition getsize (path : string) : M (World Store) Z :=
  (w <- get ;;
   match fs w !! path with
   | Some bytes => ret (Z.of_nat (length bytes))
   | None => raise (OSError "No such file or directory")
   end)%py.

(** [os.remove(path)] *)
Definition os_remove (path : string) : M (World Store) unit :=
  (log (EvRemove path) ;;;
   match remove_fault host path with
   | Some e => raise e
   | None =>
       w <- get ;;
       match fs w !! path with
       | Some _ =>
           modify (fun w => mkWorld (delete path (fs w)) (environ w) (store w) (trace w))
       | None => raise (OSError "No such file or directory")
       end
   end)%py.

(** [os.getenv(name)] *)
Definition getenv (name : string) : M (World Store) (option string) :=
  (w <- get ;; ret (environ w !! name))%py.

(** [Media(...)]: validation, then the record. *)
Definition Media_new (m : Media.t) : M (World Store) Media.t :=
  match Media_validate m with
  | Some e => raise e
  | None => ret m
  end.

Definition call_create_document (collection_name : string) (doc : Media.t)
  : M (World Store) string :=
  (log (EvCreateDocument collection_name doc) ;;;
   fun w =>
     let '(r, st) := create_document collection_name doc (store w) in
     (r, mkWorld (fs w) (environ w) st (trace w)))%py.

Definition call_get_documents (collection_name : string) (filter : gmap string pyval)
    (limit : Z) : M (World Store) (list (gmap string pyval)) :=
  fun w =>
    let '(r, st) := get_documents collection_name filter limit (store w) in
    (r, mkWorld (fs w) (environ w) st (trace w)).

Definition classify (content_type : string) : media_kind :=
  if startswith content_type "video/" then Video
  else if startswith content_type "image/" then Image
  else Other.

(** [file.content_type or "application/octet-stream"] *)
Definition effective_content_type (file : UploadFile.t) : string :=
  opt_str_or (UploadFile.content_type file) "application/octet-stream".

(** [os.path.splitext(file.filename or "")[1] or (".mp4" if kind == "video" else ".jpg")] *)
Definition choose_ext (file : UploadFile.t) (k : media_kind) : string :=
  str_or (snd (splitext (opt_str_or (UploadFile.filename file) "")))
         (if kind_eqb k Video then ".mp4" else ".jpg").

(** [f"{uuid.uuid4().hex}{ext}"] *)
Definition make_unique_name (ext : string) : string :=
  uuid4_hex (urandom16 host) +:+ ext.

(** The public URL, from [os.getenv("PUBLIC_BACKEND_URL")]. *)
Definition public_url (base : option string) (unique_name : string) : string :=
  let base_url := opt_str_or base "" in
  if String.eqb base_url "" then "/uploads/" +:+ unique_name
  else base_url +:+ "/uploads/" +:+ unique_name.

(** The inner [try] block of [upload_media]: the imports, the record, the
    insert. *)
Definition save_metadata (doc : Media.t) : M (World Store) (string * Media.t) :=
  (import "database" ;;;
   import "schemas" ;;;
   media_doc <- Media_new doc ;;
   inserted_id <- call_create_document "media" media_doc ;;
   ret (inserted_id, media_doc))%py.

(** [try: os.remove(dest_path) / except Exception: pass] *)
Definition cleanup (path : string) : M (World Store) unit :=
  try_except (os_remove path) (fun _ => ret tt).

(** The body of [upload_media]. *)
Definition upload_media (file : UploadFile.t) (title : string)
    (description : option string) : M (World Store) Uploaded.t :=
  (try_except
     (let content_type := effective_content_type file in
      let kind := classify content_type in
      if kind_eqb kind Other
      then raise (HTTPException 400 "Only images and videos are allowed")
      else
        let ext := choose_ext file kind in
        let unique_name := make_unique_name ext in
        let dest_path := path_join UPLOAD_DIR unique_name in
        let contents := UploadFile.payload file in
        write_file dest_path contents ;;;
        size <- getsize dest_path ;;
        base <- getenv "PUBLIC_BACKEND_URL" ;;
        let url := public_url base unique_name in
        r <- try_except
               (save_metadata
                  (Media.mk title description kind unique_name url size content_type))
               (fun e =>
                  cleanup dest_path ;;;
                  raise (HTTPException 500 ("Database error: " +:+ str_exn e))) ;;
        ret (Uploaded.mk (fst r) "Uploaded" (snd r)))
     (fun e =>
        if is_HTTPException e then raise e
        else raise (HTTPException 500 (str_exn e))))%py.

(** Names for what [upload_media] derives from a request. *)
Definition stored_name (file : UploadFile.t) : string :=
  make_unique_name (choose_ext file (classify (effective_content_type file))).

Definition stored_path (file : UploadFile.t) : string :=
  path_join UPLOAD_DIR (stored_name file).

(** The world once the payload is on disk. *)
Definition written (file : UploadFile.t) (w : World Store) : World Store :=
  mkWorld (<[stored_path file := UploadFile.payload file]> (fs w))
          (environ w) (store w) (EvWrite (stored_path file) :: trace w).

(** The record the handler hands to [Media(...)] from world [w]. *)
Definition draft (file : UploadFile.t) (title : string)
    (description : option string) (w : World Store) : Media.t :=
  Media.mk title description (classify (effective_content_type file))
    (stored_name file)
    (public_url (environ w !! "PUBLIC_BACKEND_URL") (stored_name file))
    (Z.of_nat (length (UploadFile.payload file)))
    (effective_content_type file).

(** The outer [except] clauses of [upload_media]. *)
Definition wrap500 (e : exn) : exn :=
  if is_HTTPException e then e else HTTPException 500 (str_exn e).

(** The request with another client-declared length. *)
Definition declare_size (file : UploadFile.t) (n : option Z) : UploadFile.t :=
  UploadFile.mk (UploadFile.filename file) (UploadFile.content_type file) n
                (UploadFile.payload file).

(** [lambda x: x.get("created_at")] *)
Definition created_at (x : gmap string pyval) : pyval :=
  default VNone (x !! "created_at").

(** [if it.get("_id"): it["_id"] = str(it["_id"])] *)
Definition normalize_id (it : gmap string pyval) : gmap string pyval :=
  if truthy (default VNone (it !! "_id"))
  then <["_id" := VStr (py_str (str_datetime host) (default VNone (it !! "_id")))]> it
  else it.

(** The body of [list_media].  The list [get_documents] returned is
    sorted in place; whether or not the sort raised, the handler goes on
    with the list as the sort left it. *)
Definition list_media (limit : Z) : M (World Store) Listed.t :=
  (try_except
     (import "database" ;;;
      items <- call_get_documents "media" ∅ limit ;;
      let items := snd (try_except (list_sort created_at true) (fun _ => ret tt) items) in
      let items := map normalize_id items in
      ret (Listed.mk items))
     (fun e => raise (HTTPException 500 ("Failed to list media: " +:+ str_exn e))))%py.

End Handlers.

Arguments upload_media {Store _} host file title description _.
Arguments list_media {Store _} host limit _.

(** ** The routes *)

Inductive response (A : Type) : Type :=
  | Ok200 (body : A)
  | Failed (status : Z) (detail : string).
Arguments Ok200 {A}.
Arguments Failed {A}.

(** What the framework answers for a handler's outcome: the returned
    value with status 200, an [HTTPException] with its own status, any
    other exception with 500. *)
Definition respond {A} (r : exn + A) : response A :=
  match r with
  | inr a => Ok200 a
  | inl (HTTPException c d) => Failed c d
  | inl _ => Failed 500 "Internal Server Error"
  end.

(** The multipart form as the client sent it. *)
Record UploadForm : Type := mkForm {
  form_file : option UploadFile.t;
  form_title : option string;
  form_description : option string;
}.

(** FastAPI's reading of a [Form] field ([request_body_to_args]): a field
    that is absent, or present with the empty string as its value, counts
    as not sent.  A required parameter ([Form(...)]) is then reported
    missing; an optional one ([Form(None)]) takes its default. *)
Definition form_value (v : option string) : option string :=
  match v with
  | Some EmptyString => None
  | _ => v
  end.

Section Routes.
Context {Store : Type} `{Database Store} (host : Host).

(** [POST /api/media]: the parameters [file = File(...)],
    [title = Form(...)], [description = Form(None)] are bound first, and a
    missing required one answers 422 without calling the handler. *)
Definition post_api_media (form : UploadForm) (w : World Store)
  : response Uploaded.t * World Store :=
  match form_file form, form_value (form_title form) with
  | Some file, Some title =>
      let '(r, w') :=
        upload_media host file title (form_value (form_description form)) w in
      (respond r, w')
  | _, _ => (Failed 422 "Field required", w)
  end.

(** [GET /api/media] *)
Definition get_api_media (limit : Z) (w : World Store) : response Listed.t * World Store :=
  let '(r, w') := list_media host limit w in (respond r, w').

End Routes.

(** ** Diagnostics *)

Module Report.
(** The [response] dict of [test_database]. *)
Record t : Type := mk {
  backend : string;
  database : string;
  database_url : option string;
  database_name : option string;
  connection_status : string;
  collections : list string;
}.

Definition set_database (v : string) (r : t) : t :=
  mk (backend r) v (database_url r) (database_name r) (connection_status r) (collections r).

Definition set_database_url (v : option string) (r : t) : t :=
  mk (backend r) (database r) v (database_name r) (connection_status r) (collections r).

Definition set_database_name (v : option string) (r : t) : t :=
  mk (backend r) (database r) (database_url r) v (connection_status r) (collections r).

Definition set_connection_status (v : string) (r : t) : t :=
  mk (backend r) (database r) (database_url r) (database_name r) v (collections r).

Definition set_collections (v : list string) (r : t) : t :=
  mk (backend r) (database r) (database_url r) (database_name r) (connection_status r) v.
End Report.

(** The object [from database import db] binds, when it is not [None]:
    its [name] attribute (absent, raising on access, or a value) and what
    [list_collection_names()] does. *)
Record DbHandle : Type := mkDb {
  db_name : option (exn + string);
  db_list_collection_names : exn + list string;
}.

(** [os.getenv(name)] as a condition. *)
Definition env_set (environ : gmap string string) (name : string) : bool :=
  match environ !! name with
  | Some v => negb (String.eqb v "")
  | None => false
  end.

(** The body of [test_database], on the [response] dict as its state.
    [imported] is the outcome of [from database import db]. *)
Definition test_database_body (imported : exn + option DbHandle)
    (environ : gmap string string) : M Report.t unit :=
  (try_except
     (db <- (fun r => (imported, r)) ;;
      match db with
      | Some db =>
          modify (Report.set_database "✅ Available") ;;;
          modify (Report.set_database_url (Some "✅ Configured")) ;;;
          name <- match db_name db with
                  | Some (inr n) => ret n
                  | Some (inl e) => raise e
                  | None => ret "✅ Connected"
                  end ;;
          modify (Report.set_database_name (Some name)) ;;;
          modify (Report.set_connection_status "Connected") ;;;
          try_except
            (collections <- (fun r => (db_list_collection_names db, r)) ;;
             modify (Report.set_collections (take 10 collections)) ;;;
             modify (Report.set_database "✅ Connected & Working"))
            (fun e =>
               modify (Report.set_database
                         ("⚠️  Connected but Error: " +:+ str_take 50 (str_exn e))))
      | None => modify (Report.set_database "⚠️  Available but not initialized")
      end)
     (fun e =>
        if is_ImportError e
        then modify (Report.set_database
                       "❌ Database module not found (run enable-database first)")
        else modify (Report.set_database ("❌ Error: " +:+ str_take 50 (str_exn e)))) ;;;
   modify (Report.set_database_url
             (Some (if env_set environ "DATABASE_URL" then "✅ Set" else "❌ Not Set"))) ;;;
   modify (Report.set_database_name
             (Some (if env_set environ "DATABASE_NAME" then "✅ Set" else "❌ Not Set"))))%py.

Definition initial_report : Report.t :=
  Report.mk "✅ Running" "❌ Not Available" None None "Not Connected" [].

(** [test_database]: the dict is returned when the body ends. *)
Definition test_database (imported : exn + option DbHandle)
    (environ : gmap string string) : exn + Report.t :=
  match test_database_body imported environ initial_report with
  | (inl e, _) => inl e
  | (inr _, response) => inr response
  end.

(** [GET /test] *)
Definition get_test (imported : exn + option DbHandle) (environ : gmap string string)
  : response Report.t :=
  respond (test_database imported environ).

(** The text the outer [except] clauses of [test_database] leave under
    [database]. *)
Definition import_failure_text (e : exn) : string :=
  if is_ImportError e
  then "❌ Database module not found (run enable-database first)"
  else "❌ Error: " +:+ str_take 50 (str_exn e).

(** ** An in-memory store and a quiet host, to run the handlers on *)

Module Fake.
(** The stored documents, and whether the store answers. *)
Record store : Type := mk { rows : list (gmap string pyval); up : bool }.

Definition row_of (doc : Media.t) (n : nat) : gmap string pyval :=
  list_to_map
    [("_id", VObjectId (hex_fixed 24 (Z.of_nat n) ""));
     ("title", VStr (Media.title doc));
     ("description", match Media.description doc with Some d => VStr d | None => VNone end);
     ("kind", VStr (kind_str (Media.kind doc)));
     ("filename", VStr (Media.filename doc));
     ("url", VStr (Media.url doc));
     ("size", VInt (Media.size doc));
     ("content_type", VStr (Media.content_type doc));
     ("created_at", VDatetime (Z.of_nat n))].

#[global] Instance database : Database store := {
  create_document _ doc st :=
    if up st
    then (inr (hex_fixed 24 (Z.of_nat (length (rows st))) ""),
          mk (rows st ++ [row_of doc (length (rows st))]) true)
    else (inl (Exception "connection refused"), st);
  get_documents _ _ limit st :=
    if up st
    then (inr (if 0 <? limit then take (Z.to_nat limit) (rows st) else rows st), st)
    else (inl (Exception "connection refused"), st);
  Media_validate _ := None;
}.

Definition host : Host :=
  mkHost "/srv/app" 0x0123456789abcdef0123456789abcdef (fun _ => "2024-05-01 12:00:00")
         (fun _ => None) (fun _ => None) (fun _ => None) (fun _ => None).

(** An empty world; [is_up] says whether the store answers. *)
Definition world (is_up : bool) : World store := mkWorld ∅ ∅ (mk [] is_up) [].

Definition ten_bytes : list Byte.byte := repeat Byte.x2a 10.

Definition photo : UploadFile.t :=
  UploadFile.mk (Some "photo.png") (Some "image/png") (Some 99999) ten_bytes.

Definition notes : UploadFile.t :=
  UploadFile.mk (Some "notes.txt") (Some "text/plain") (Some 10) ten_bytes.

Definition untyped : UploadFile.t :=
  UploadFile.mk (Some "blob") None None ten_bytes.

Definition stamped (oid : string) (t : Z) : gmap string pyval :=
  list_to_map [("_id", VObjectId oid); ("created_at", VDatetime t)].

(** Three documents, fetched out of order. *)
Definition shelf : World store :=
  mkWorld ∅ ∅ (mk [stamped "0a" 1; stamped "0c" 3; stamped "0b" 2] true) [].

(** A document whose [_id] is the integer 0. *)
Definition zero_id : gmap string pyval :=
  list_to_map [("_id", VInt 0); ("created_at", VDatetime 7)].

Definition legacy : World store := mkWorld ∅ ∅ (mk [zero_id] true) [].

(** A document with no [created_at], fetched after one that has it. *)
Definition bare : gmap string pyval := list_to_map [("_id", VObjectId "0d")].

Definition unstamped : World store :=
  mkWorld ∅ ∅ (mk [stamped "0a" 1; bare] true) [].
End Fake.

(** ** Orders on fetched documents *)


(** The record carries a timestamp under [created_at]. *)
Definition has_timestamp (it : gmap string pyval) : Prop :=
  exists t, it !! "created_at" = Some (VDatetime t).

(** Every [_id] in the list is a string. *)
Definition ids_are_strings (items : list (gmap string pyval)) : bool :=
  forallb (fun it => match it !! "_id" with Some v => is_str v | None => true end) items.

(** Ascending by timestamp, for the elements of a list sorted on [key]. *)
Definition stamp_le {A : Type} (key : A -> pyval) (a b : A) : Prop :=
  match key a, key b with
  | VDatetime ta, VDatetime tb => ta <= tb
  | _, _ => False
  end.

Definition dated {A : Type} (key : A -> pyval) (a : A) : Prop :=
  exists t, key a = VDatetime t.

(** ** Liveness routes *)

(** [GET /]: the body [read_root] returns. *)
Definition read_root : gmap string string :=
  {["message" := "Realtor Media API running"]}.

(** [GET /api/hello]: the body [hello] returns. *)
Definition hello : gmap string string :=
  {["message" := "Hello from the backend API!"]}.

(** ** Predicates on strings and documents *)

(** [c in s] *)
Fixpoint str_has (c : ascii) (s : string) : bool :=
  match s with
  | EmptyString => false
  | String a s' => Ascii.eqb a c || str_has c s'
  end.

(** [l.index(c)] counted from [i], or -1. *)
Fixpoint index_from (c : ascii) (l : list ascii) (i : Z) : Z :=
  match l with
  | [] => -1
  | a :: l' => if Ascii.eqb a c then i else index_from c l' (i + 1)
  end.

(** The value of a hex digit. *)
Definition hex_val (c : ascii) : Z :=
  index_from c (list_ascii_of_string "0123456789abcdef") 0.

(** The element's key is the timestamp [t]. *)
Definition stamped_at {A : Type} (key : A -> pyval) (t : Z) (a : A) : bool :=
  match key a with
  | VDatetime t' => t' =? t
  | _ => false
  end.

(** ** Hosts whose file system fails *)

Module Faults.
(** [open] is refused. *)
Definition locked : Host :=
  mkHost "/srv/app" 0x0123456789abcdef0123456789abcdef (fun _ => "2024-05-01 12:00:00")
         (fun _ => None) (fun _ => Some (OSError "Permission denied"))
         (fun _ => None) (fun _ => None).

(** The disk is full after four bytes. *)
Definition full : Host :=
  mkHost "/srv/app" 0x0123456789abcdef0123456789abcdef (fun _ => "2024-05-01 12:00:00")
         (fun _ => None) (fun _ => None)
         (fun _ => Some (4%nat, OSError "No space left on device")) (fun _ => None).

(** [Fake.host] with other random bits in the version field. *)
Definition twin : Host :=
  mkHost "/srv/app" 0x0123456789abfdef0123456789abcdef (fun _ => "2024-05-01 12:00:00")
         (fun _ => None) (fun _ => None) (fun _ => None) (fun _ => None).

(** Two documents created at the same time, between two others. *)
Definition ties : World Fake.store :=
  mkWorld ∅ ∅
    (Fake.mk [Fake.stamped "0a" 1; Fake.stamped "0b" 2; Fake.stamped "0c" 2;
              Fake.stamped "0d" 3] true) [].
End Faults.

(** * Verification *)

(** [H : (a, b) = (c, d)] with [c] and [d] variables: replace them. *)
Ltac pair_inv H := apply pair_equal_spec in H; destruct H as [<- <-].

(** Unfold the monad and the primitive operations. *)
Ltac run :=
  cbv beta iota delta
    [try_except bind ret raise get modify log set_file import getsize os_remove
     getenv Media_new call_create_document call_get_documents] in *.

(** ** Strings *)




Lemma hex_fixed_length n z acc :
  String.length (hex_fixed n z acc) = (n + String.length acc)%nat.
Proof.
  revert z acc. induction n as [| n IH]; intros z acc; cbn [hex_fixed]; [reflexivity |].
  rewrite IH. cbn [String.length]. lia.
Qed.

Lemma hex_digit_is_hex d : 0 <= d < 16 -> is_hex (hex_digit d) = true.
Proof.
  intros Hd. assert (Hn : (Z.to_nat d < 16)%nat) by lia.
  unfold hex_digit. generalize dependent (Z.to_nat d). clear. intros n Hn.
  do 16 (destruct n as [| n]; [reflexivity |]). lia.
Qed.

Lemma hex_fixed_is_hex n z acc :
  forallb is_hex (list_ascii_of_string acc) = true ->
  forallb is_hex (list_ascii_of_string (hex_fixed n z acc)) = true.
Proof.
  revert z acc. induction n as [| n IH]; intros z acc Hacc; cbn [hex_fixed]; [exact Hacc |].
  apply IH. cbn [list_ascii_of_string forallb].
  rewrite hex_digit_is_hex by (apply Z.mod_pos_bound; lia). exact Hacc.
Qed.

(** [uuid4().int] fits the 32 digits [uuid4_hex] prints. *)
Lemma uuid4_int_range random : 0 <= uuid4_int random < 2 ^ 128.
Proof.
  assert (E : uuid4_int random = uuid4_int random mod 2 ^ 128).
  { apply Z.bits_inj'. intros m Hm. destruct (Z.lt_ge_cases m 128).
    - rewrite Z.mod_pow2_bits_low by lia. reflexivity.
    - rewrite Z.mod_pow2_bits_high by lia. unfold uuid4_int.
      rewrite Z.lor_spec, Z.ldiff_spec, Z.lor_spec, Z.ldiff_spec.
      rewrite Z.mod_pow2_bits_high by lia.
      rewrite !Z.shiftl_spec by lia.
      rewrite (Z.bits_above_log2 0x8000) by (cbn; lia).
      rewrite (Z.bits_above_log2 4) by (cbn; lia).
      reflexivity. }
  rewrite E. apply Z.mod_pos_bound. lia.
Qed.

Lemma startswith_video_not_image ct :
  startswith ct "video/" = true -> startswith ct "image/" = false.
Proof.
  unfold startswith. destruct ct as [| c ct']; [discriminate |].
  cbn [String.prefix]. destruct (ascii_dec "v" c) as [<- |]; [| discriminate].
  intros _. destruct (ascii_dec "i" "v") as [E |]; [discriminate E | reflexivity].
Qed.

(** ** The upload handler, case by case *)

Section UploadFacts.
Context {Store : Type} `{Database Store} (host : Host).

Lemma classify_Other ct :
  classify ct = Other <-> startswith ct "image/" = false /\ startswith ct "video/" = false.
Proof.
  unfold classify.
  destruct (startswith ct "video/"), (startswith ct "image/"); intuition congruence.
Qed.

Lemma kind_eqb_Other k : k <> Other -> kind_eqb k Other = false.
Proof. destruct k; [reflexivity | reflexivity | congruence]. Qed.

Lemma upload_media_Other file title description (w : World Store) :
  classify (effective_content_type file) = Other ->
  upload_media host file title description w =
    (inl (HTTPException 400 "Only images and videos are allowed"), w).
Proof.
  intros Hk. unfold upload_media. run. rewrite Hk. reflexivity.
Qed.

Lemma upload_media_open_fails file title description (w : World Store) e :
  classify (effective_content_type file) <> Other ->
  open_fault host (stored_path host file) = Some e ->
  upload_media host file title description w = (inl (wrap500 e), w).
Proof.
  intros Hk Ho. unfold upload_media. rewrite (kind_eqb_Other _ Hk).
  unfold stored_path, stored_name in *.
  unfold write_file. rewrite Ho.
  cbv beta iota delta [try_except bind ret raise]. unfold wrap500.
  destruct (is_HTTPException e); reflexivity.
Qed.

Lemma upload_media_write_fails file title description (w : World Store) n e :
  classify (effective_content_type file) <> Other ->
  open_fault host (stored_path host file) = None ->
  write_fault host (stored_path host file) = Some (n, e) ->
  upload_media host file title description w =
    (inl (wrap500 e),
     mkWorld (<[stored_path host file := take n (UploadFile.payload file)]> (fs w))
             (environ w) (store w) (EvWrite (stored_path host file) :: trace w)).
Proof.
  intros Hk Ho Hw. unfold upload_media. rewrite (kind_eqb_Other _ Hk).
  unfold stored_path, stored_name in *.
  unfold write_file. rewrite Ho, Hw.
  cbv beta iota delta [try_except bind ret raise modify log set_file].
  cbn [fs environ store trace]. unfold wrap500.
  destruct (is_HTTPException e); reflexivity.
Qed.

(** The cleanup never raises, always calls [os.remove], and leaves no
    file behind when the call succeeds. *)
Lemma cleanup_spec path (w : World Store) :
  fst (cleanup host path w) = inr tt /\
  trace (snd (cleanup host path w)) = EvRemove path :: trace w /\
  store (snd (cleanup host path w)) = store w /\
  (remove_fault host path = None -> fs (snd (cleanup host path w)) !! path = None) /\
  (forall e, remove_fault host path = Some e -> fs (snd (cleanup host path w)) = fs w).
Proof.
  unfold cleanup. run. cbn [fs environ store trace].
  destruct (remove_fault host path) as [e |]; cbn.
  { repeat split; auto; discriminate. }
  destruct (fs w !! path) eqn:E; cbn.
  - repeat split; auto; [intros _; apply lookup_delete_eq | discriminate].
  - repeat split; auto; discriminate.
Qed.

(** Once the payload is on disk, the outcome is that of the inner block. *)
Lemma upload_media_written file title description (w : World Store) :
  classify (effective_content_type file) <> Other ->
  open_fault host (stored_path host file) = None ->
  write_fault host (stored_path host file) = None ->
  upload_media host file title description w =
    match save_metadata host (draft host file title description w) (written host file w) with
    | (inr r, w2) => (inr (Uploaded.mk (fst r) "Uploaded" (snd r)), w2)
    | (inl e, w2) =>
        (inl (HTTPException 500 ("Database error: " +:+ str_exn e)),
         snd (cleanup host (stored_path host file) w2))
    end.
Proof.
  intros Hk Ho Hw. unfold upload_media. rewrite (kind_eqb_Other _ Hk).
  unfold draft, written, stored_path, stored_name in *.
  unfold write_file. rewrite Ho, Hw.
  cbv beta iota delta [try_except bind ret raise get modify log set_file getsize getenv].
  cbn [fs environ store trace]. rewrite lookup_insert_eq.
  destruct (save_metadata _ _ _) as [[e | r] w2]; [| reflexivity].
  destruct (cleanup_spec (path_join (UPLOAD_DIR host)
              (make_unique_name host
                 (choose_ext file (classify (effective_content_type file))))) w2)
    as (Hc & _).
  destruct (cleanup host _ w2) as [[e' | []] w3]; [discriminate Hc | reflexivity].
Qed.

(** The inner block leaves the files and the environment alone, and
    reaches the store only through [create_document]. *)
Lemma save_metadata_frame doc (w : World Store) r w2 :
  save_metadata host doc w = (r, w2) ->
  fs w2 = fs w /\ environ w2 = environ w /\
  (trace w2 = trace w \/ trace w2 = EvCreateDocument "media" doc :: trace w).
Proof.
  unfold save_metadata. run.
  destruct (import_fault host "database"); [intros [= <- <-]; auto |].
  destruct (import_fault host "schemas"); [intros [= <- <-]; auto |].
  destruct (Media_validate doc); [intros [= <- <-]; auto |].
  cbn [fs environ store trace].
  destruct (create_document "media" doc (store w)) as [[e | i] st];
    intros [= <- <-]; cbn; auto.
Qed.

Lemma save_metadata_inr doc (w : World Store) i m w2 :
  save_metadata host doc w = (inr (i, m), w2) ->
  m = doc /\ Media_validate doc = None /\
  create_document "media" doc (store w) = (inr i, store w2) /\
  trace w2 = EvCreateDocument "media" doc :: trace w.
Proof.
  unfold save_metadata. run.
  destruct (import_fault host "database"); [discriminate |].
  destruct (import_fault host "schemas"); [discriminate |].
  destruct (Media_validate doc); [discriminate |].
  cbn [fs environ store trace].
  destruct (create_document "media" doc (store w)) as [[e | i'] st];
    intros [= <- <- <-]; cbn; auto.
Qed.

(** What a successful upload went through. *)
Lemma upload_media_inr file title description (w : World Store) u w' :
  upload_media host file title description w = (inr u, w') ->
  classify (effective_content_type file) <> Other /\
  open_fault host (stored_path host file) = None /\
  write_fault host (stored_path host file) = None /\
  save_metadata host (draft host file title description w) (written host file w)
    = (inr (Uploaded.id u, Uploaded.item u), w') /\
  Uploaded.message u = "Uploaded".
Proof.
  intros Hrun.
  destruct (classify (effective_content_type file)) eqn:Hk.
  3: { rewrite upload_media_Other in Hrun by assumption. discriminate. }
  all: assert (Hk' : classify (effective_content_type file) <> Other) by congruence;
    rewrite <- Hk; clear Hk.
  all: destruct (open_fault host (stored_path host file)) as [e |] eqn:Ho;
    [rewrite (upload_media_open_fails _ _ _ _ e) in Hrun by assumption; discriminate |].
  all: destruct (write_fault host (stored_path host file)) as [[n e] |] eqn:Hw;
    [rewrite (upload_media_write_fails _ _ _ _ n e) in Hrun by assumption; discriminate |].
  all: rewrite upload_media_written in Hrun by assumption.
  all: destruct (save_metadata _ _ _) as [[e | [i m]] w2]; [discriminate |].
  all: injection Hrun as <- <-; cbn; auto.
Qed.

(** Every record a request hands to the store is the one drafted from an
    accepted content type. *)
Lemma upload_media_creates file title description (w : World Store) r w' :
  upload_media host file title description w = (r, w') ->
  exists evs,
    trace w' = evs ++ trace w /\
    forall c m, In (EvCreateDocument c m) evs ->
      classify (effective_content_type file) <> Other /\
      c = "media" /\ m = draft host file title description w.
Proof.
  intros Hrun.
  destruct (classify (effective_content_type file)) eqn:Hk.
  3: { rewrite upload_media_Other in Hrun by assumption.
       pair_inv Hrun. exists []. split; [reflexivity | intros ? ? []]. }
  all: assert (Hk' : classify (effective_content_type file) <> Other) by congruence.
  all: rewrite <- Hk in *; clear Hk.
  all: set (path := stored_path host file) in *.
  all: set (doc := draft host file title description w) in *.
  all: destruct (open_fault host path) as [e |] eqn:Ho;
    [rewrite (upload_media_open_fails _ _ _ _ e) in Hrun by assumption;
     pair_inv Hrun; exists []; split; [reflexivity | intros ? ? []] |].
  all: destruct (write_fault host path) as [[n e] |] eqn:Hw;
    [rewrite (upload_media_write_fails _ _ _ _ n e) in Hrun by assumption;
     pair_inv Hrun; exists [EvWrite (stored_path host file)];
     split; [reflexivity | intros ? ? [Hin | []]; discriminate Hin] |].
  all: rewrite upload_media_written in Hrun by assumption.
  all: fold path doc in Hrun.
  all: destruct (save_metadata host doc (written host file w)) as [[e | i] w2] eqn:Hs.
  all: destruct (save_metadata_frame _ _ _ _ Hs) as (_ & _ & Ht).
  all: pair_inv Hrun.
  all: try (destruct (cleanup_spec path w2) as (_ & Hc & _); rewrite Hc).
  all: unfold written in Ht; cbn [trace] in Ht; fold path in Ht.
  all: destruct Ht as [-> | ->].
  1, 5: exists [EvRemove path; EvWrite path]; (split; [reflexivity |]);
    intros c m [Hin | [Hin | []]]; discriminate Hin.
  1, 4: exists [EvRemove path; EvCreateDocument "media" doc; EvWrite path];
    (split; [reflexivity |]);
    intros c m [Hin | [Hin | [Hin | []]]]; try discriminate Hin;
    injection Hin as <- <-; auto.
  1, 3: exists [EvWrite path]; (split; [reflexivity |]);
    intros c m [Hin | []]; discriminate Hin.
  all: exists [EvCreateDocument "media" doc; EvWrite path]; (split; [reflexivity |]);
    intros c m [Hin | [Hin | []]]; try discriminate Hin;
    injection Hin as <- <-; auto.
Qed.

Lemma upload_media_declare_size file n title description (w : World Store) :
  upload_media host (declare_size file n) title description w =
  upload_media host file title description w.
Proof. destruct file; reflexivity. Qed.

End UploadFacts.

(** ** The upload handler: what the specification promises *)

Section UploadClaims.
Context {Store : Type} `{Database Store} (host : Host).

(** C1. An upload whose declared content type begins neither with
    [image/] nor with [video/] fails with HTTP 400, and the world it ran
    in is unchanged: no file is written, the store is not called, no
    record is created. *)
Theorem upload_disallowed_type_rejected file title description (w : World Store) ct :
  UploadFile.content_type file = Some ct ->
  startswith ct "image/" = false ->
  startswith ct "video/" = false ->
  upload_media host file title description w =
    (inl (HTTPException 400 "Only images and videos are allowed"), w).
Proof.
  intros Hct Hi Hv. apply upload_media_Other.
  unfold effective_content_type. rewrite Hct.
  destruct ct as [| c ct']; [reflexivity |].
  cbn [opt_str_or str_or]. apply classify_Other. auto.
Qed.

(** C10. A file part that declares no content type is treated as
    [application/octet-stream], classified [other] and rejected with
    HTTP 400; the handler does not crash and the world is unchanged (no
    stored file, no record). *)
Theorem upload_missing_type_rejected file title description (w : World Store) :
  UploadFile.content_type file = None ->
  effective_content_type file = "application/octet-stream" /\
  classify (effective_content_type file) = Other /\
  upload_media host file title description w =
    (inl (HTTPException 400 "Only images and videos are allowed"), w).
Proof.
  intros Hct.
  assert (E : effective_content_type file = "application/octet-stream").
  { unfold effective_content_type. rewrite Hct. reflexivity. }
  split; [exact E |].
  assert (K : classify (effective_content_type file) = Other).
  { rewrite E. reflexivity. }
  split; [exact K |]. apply upload_media_Other, K.
Qed.

(** C2. When the file has been written and the metadata step then raises
    [e], the handler calls [os.remove] on the file it has just written,
    ignores whatever that call raises, and fails with HTTP 500 whose
    detail carries [str(e)]; when the removal succeeds the storage
    directory holds no file under the upload's name, and when it fails
    the file stays and the response is the same. *)
Theorem upload_metadata_failure_cleans_up file title description (w : World Store) e w2 :
  classify (effective_content_type file) <> Other ->
  open_fault host (stored_path host file) = None ->
  write_fault host (stored_path host file) = None ->
  save_metadata host (draft host file title description w) (written host file w)
    = (inl e, w2) ->
  exists w',
    upload_media host file title description w =
      (inl (HTTPException 500 ("Database error: " +:+ str_exn e)), w') /\
    trace w' = EvRemove (stored_path host file) :: trace w2 /\
    (remove_fault host (stored_path host file) = None ->
     fs w' !! stored_path host file = None) /\
    (forall e', remove_fault host (stored_path host file) = Some e' ->
     fs w' !! stored_path host file = Some (UploadFile.payload file)).
Proof.
  intros Hk Ho Hw Hs.
  exists (snd (cleanup host (stored_path host file) w2)).
  rewrite upload_media_written by assumption. rewrite Hs.
  destruct (cleanup_spec host (stored_path host file) w2) as (_ & Ht & _ & Hrm & Hkeep).
  repeat split; auto.
  intros e' He'. rewrite (Hkeep e' He').
  destruct (save_metadata_frame host _ _ _ _ Hs) as (-> & _).
  unfold written. cbn [fs]. apply lookup_insert_eq.
Qed.

(** C3. After a successful upload the file is on disk with the payload as
    its content; the [size] of the returned item is the byte length of
    that file, the returned item is the record the store accepted, and
    the result is the same whatever length the client declared. *)
Theorem upload_size_is_length_on_disk file title description (w : World Store) u w' :
  upload_media host file title description w = (inr u, w') ->
  exists bytes,
    fs w' !! stored_path host file = Some bytes /\
    bytes = UploadFile.payload file /\
    Media.size (Uploaded.item u) = Z.of_nat (length bytes) /\
    create_document "media" (Uploaded.item u) (store w) = (inr (Uploaded.id u), store w') /\
    forall n, upload_media host (declare_size file n) title description w = (inr u, w').
Proof.
  intros Hrun.
  destruct (upload_media_inr host _ _ _ _ _ _ Hrun) as (Hk & Ho & Hw & Hs & _).
  destruct (save_metadata_frame host _ _ _ _ Hs) as (Hfs & _ & _).
  destruct (save_metadata_inr host _ _ _ _ _ Hs) as (Hm & _ & Hc & _).
  exists (UploadFile.payload file). repeat split.
  - rewrite Hfs. unfold written. cbn [fs]. apply lookup_insert_eq.
  - rewrite Hm. reflexivity.
  - rewrite Hm at 1. exact Hc.
  - intros n. rewrite upload_media_declare_size. exact Hrun.
Qed.

(** C4. Every record a request hands to the store has kind [image] or
    [video], never [other]: [video] exactly when the content type the
    handler works with begins with [video/], [image] exactly when it
    begins with [image/]; and a request whose content type is anything
    else is rejected with the world unchanged. *)
Theorem persisted_kind_image_or_video file title description (w : World Store) r w' :
  upload_media host file title description w = (r, w') ->
  let ct := effective_content_type file in
  (classify ct = Other -> w' = w) /\
  exists evs,
    trace w' = evs ++ trace w /\
    forall c m, In (EvCreateDocument c m) evs ->
      Media.content_type m = ct /\
      Media.kind m <> Other /\
      (Media.kind m = Video \/ Media.kind m = Image) /\
      (Media.kind m = Video <-> startswith ct "video/" = true) /\
      (Media.kind m = Image <-> startswith ct "image/" = true).
Proof.
  intros Hrun ct. split.
  { intros Hk. rewrite upload_media_Other in Hrun by exact Hk. congruence. }
  destruct (upload_media_creates host _ _ _ _ _ _ Hrun) as (evs & Ht & Hev).
  exists evs. split; [exact Ht |].
  intros c m Hin. destruct (Hev c m Hin) as (Hk & _ & ->).
  cbn [draft Media.content_type Media.kind]. fold ct in Hk |- *.
  split; [reflexivity |].
  split; [exact Hk |].
  unfold classify in *.
  destruct (startswith ct "video/") eqn:Ev.
  - rewrite (startswith_video_not_image _ Ev). intuition congruence.
  - destruct (startswith ct "image/") eqn:Ei; intuition congruence.
Qed.


(** C8. Every record a request to the upload route hands to the store
    carries the title the client sent, and that title is not empty: the
    route answers 422 for an absent or empty [title] before the handler
    runs. *)
Theorem persisted_title_nonempty form (w : World Store) resp w' :
  post_api_media host form w = (resp, w') ->
  exists evs,
    trace w' = evs ++ trace w /\
    forall c m, In (EvCreateDocument c m) evs ->
      form_title form = Some (Media.title m) /\ Media.title m <> "".
Proof.
  unfold post_api_media. intros Hrun.
  destruct (form_file form) as [file |].
  2: { pair_inv Hrun. exists []. split; [reflexivity | intros ? ? []]. }
  destruct (form_title form) as [[| c0 t] |]; cbn [form_value] in Hrun.
  1, 3: pair_inv Hrun; exists []; (split; [reflexivity | intros ? ? []]).
  destruct (upload_media host file (String c0 t) _ w) as [r w1] eqn:Hup.
  pair_inv Hrun.
  destruct (upload_media_creates host _ _ _ _ _ _ Hup) as (evs & Ht & Hev).
  exists evs. split; [exact Ht |].
  intros c m Hin. destruct (Hev c m Hin) as (_ & _ & ->).
  cbn [draft Media.title]. split; [reflexivity | discriminate].
Qed.

End UploadClaims.

(** ** [list.sort] *)

Section SortFacts.
Context {A : Type} (key : A -> pyval).

Lemma insort_perm x run r : insort key x run = inr r -> Permutation (x :: run) r.
Proof.
  revert r. induction run as [| y ys IH]; intros r; cbn [insort].
  - intros [= <-]. reflexivity.
  - destruct (py_lt (key x) (key y)) as [e | []]; [discriminate | |].
    + intros [= <-]. reflexivity.
    + destruct (insort key x ys) as [e | r']; [discriminate |].
      intros [= <-]. rewrite perm_swap. constructor. apply IH. reflexivity.
Qed.

Lemma sort_pass_perm run todo :
  Permutation (run ++ todo) (snd (sort_pass key run todo)).
Proof.
  revert run. induction todo as [| x rest IH]; intros run; cbn [sort_pass].
  - rewrite app_nil_r. reflexivity.
  - destruct (insort key x run) as [e | run'] eqn:E; [reflexivity |].
    rewrite <- IH. apply insort_perm in E.
    rewrite <- E. rewrite <- Permutation_middle. reflexivity.
Qed.

Lemma list_sort_perm reverse l : Permutation l (snd (list_sort key reverse l)).
Proof.
  unfold list_sort.
  pose proof (sort_pass_perm [] (if reverse then rev l else l)) as P.
  destruct (sort_pass key [] _) as [r l'] eqn:E. cbn [snd app] in *.
  destruct reverse.
  - rewrite <- Permutation_rev, <- P. apply Permutation_rev.
  - exact P.
Qed.

Lemma stamp_le_dated a b ta tb :
  key a = VDatetime ta -> key b = VDatetime tb -> stamp_le key a b <-> ta <= tb.
Proof. intros Ha Hb. unfold stamp_le. rewrite Ha, Hb. reflexivity. Qed.

Lemma stamp_le_trans a b c : stamp_le key a b -> stamp_le key b c -> stamp_le key a c.
Proof.
  unfold stamp_le.
  destruct (key a), (key b), (key c); try tauto. lia.
Qed.

Lemma insort_dated x run :
  dated key x -> List.Forall (dated key) run -> StronglySorted (stamp_le key) run ->
  exists r, insort key x run = inr r /\ StronglySorted (stamp_le key) r.
Proof.
  intros [tx Hx]. induction run as [| y ys IH]; intros Hd Hs; cbn [insort].
  - exists [x]. split; [reflexivity |]. repeat constructor.
  - apply List.Forall_cons_iff in Hd. destruct Hd as [[ty Hy] Hd].
    apply StronglySorted_inv in Hs. destruct Hs as [Hs Hall].
    rewrite Hx, Hy. cbn [py_lt].
    destruct (tx <? ty) eqn:Hlt.
    + exists (x :: y :: ys). split; [reflexivity |].
      apply Z.ltb_lt in Hlt.
      assert (Hxy : stamp_le key x y) by (apply (stamp_le_dated _ _ tx ty); auto; lia).
      constructor; [constructor; assumption |].
      constructor; [exact Hxy |].
      eapply List.Forall_impl; [| exact Hall].
      intros z Hyz. eapply stamp_le_trans; eassumption.
    + destruct (IH Hd Hs) as (r & Hr & Hsr). rewrite Hr.
      exists (y :: r). split; [reflexivity |].
      apply Z.ltb_ge in Hlt.
      constructor; [exact Hsr |].
      apply List.Forall_forall. intros z Hz.
      apply (Permutation_in _ (Permutation_sym (insort_perm _ _ _ Hr))) in Hz.
      destruct Hz as [<- | Hz].
      * apply (stamp_le_dated _ _ ty tx); auto.
      * rewrite List.Forall_forall in Hall. auto.
Qed.

Lemma sort_pass_dated run todo :
  List.Forall (dated key) run -> List.Forall (dated key) todo ->
  StronglySorted (stamp_le key) run ->
  exists l, sort_pass key run todo = (inr tt, l) /\ StronglySorted (stamp_le key) l.
Proof.
  revert run. induction todo as [| x rest IH]; intros run Hr Ht Hs; cbn [sort_pass].
  - exists run. auto.
  - apply List.Forall_cons_iff in Ht. destruct Ht as [Hx Ht].
    destruct (insort_dated x run Hx Hr Hs) as (run' & E & Hs').
    rewrite E. apply IH; [| exact Ht | exact Hs'].
    apply List.Forall_forall. intros z Hz.
    apply (Permutation_in _ (Permutation_sym (insort_perm _ _ _ E))) in Hz.
    destruct Hz as [<- | Hz]; [exact Hx |].
    rewrite List.Forall_forall in Hr. auto.
Qed.



End SortFacts.

(** ** The listing handler *)

Section ListingClaims.
Context {Store : Type} `{Database Store} (host : Host).


(** What [normalize_id] does to the identifier. *)
Lemma normalize_id_spec it :
  match it !! "_id" with
  | Some v =>
      if truthy v
      then normalize_id host it !! "_id" = Some (VStr (py_str (str_datetime host) v))
      else normalize_id host it = it
  | None => normalize_id host it = it
  end.
Proof.
  unfold normalize_id. destruct (it !! "_id") as [v |].
  - change (default VNone (Some v)) with v.
    destruct (truthy v); [apply lookup_insert_eq | reflexivity].
  - reflexivity.
Qed.

(** Once the documents are fetched the handler returns them, in the order
    the sort left them, each with its identifier normalized. *)
Lemma list_media_fetched limit (w : World Store) items0 st' :
  import_fault host "database" = None ->
  get_documents "media" ∅ limit (store w) = (inr items0, st') ->
  list_media host limit w =
    (inr (Listed.mk (map (normalize_id host) (snd (list_sort created_at true items0)))),
     mkWorld (fs w) (environ w) st' (trace w)).
Proof.
  intros Hi Hg. unfold list_media, import, call_get_documents. rewrite Hi.
  cbv beta iota delta [try_except bind ret raise]. rewrite Hg.
  destruct (list_sort created_at true items0) as [[e | []] l]; reflexivity.
Qed.


(** C9, as the code has it.  Every returned document is a fetched one
    with its identifier normalized: an [_id] that is truthy (every
    [ObjectId] is) is returned as its [str], and a document whose [_id] is
    absent or falsy ([None], [False], [0], the empty string) is returned
    as fetched.  So an [_id] on a returned document is a string or a falsy
    value. *)
Theorem listing_truthy_ids_become_strings limit (w : World Store) items0 st' :
  import_fault host "database" = None ->
  get_documents "media" ∅ limit (store w) = (inr items0, st') ->
  exists l w',
    list_media host limit w = (inr (Listed.mk (map (normalize_id host) l)), w') /\
    Permutation items0 l /\
    (forall it, In it l ->
       match it !! "_id" with
       | Some v =>
           if truthy v
           then normalize_id host it !! "_id" = Some (VStr (py_str (str_datetime host) v))
           else normalize_id host it = it
       | None => normalize_id host it = it
       end) /\
    (forall it v, In it (map (normalize_id host) l) -> it !! "_id" = Some v ->
       is_str v = true \/ truthy v = false).
Proof.
  intros Hi Hg.
  pose proof (list_media_fetched limit w items0 st' Hi Hg) as Hrun.
  exists (snd (list_sort created_at true items0)). eexists.
  split; [exact Hrun |].
  split; [apply list_sort_perm |].
  split; [intros it _; apply normalize_id_spec |].
  intros it' v Hin Hv. apply List.in_map_iff in Hin. destruct Hin as (it & <- & _).
  pose proof (normalize_id_spec it) as Hn.
  destruct (it !! "_id") as [v0 |] eqn:E.
  - destruct (truthy v0) eqn:Tv.
    + rewrite Hn in Hv. injection Hv as <-. left. reflexivity.
    + rewrite Hn in Hv. right. congruence.
  - rewrite Hn in Hv. congruence.
Qed.

End ListingClaims.

(** ** Diagnostics *)

(** C7. Whatever [from database import db] does (raise [ImportError],
    raise anything else, bind [None], bind a handle whose [name] or whose
    [list_collection_names()] raises, or bind a working handle),
    [test_database] returns its report, the route answers 200 with it, and
    the failure is told by the report's [database] field. *)
Theorem diagnostics_always_200 (imported : exn + option DbHandle)
    (environ : gmap string string) :
  exists report,
    test_database imported environ = inr report /\
    get_test imported environ = Ok200 report /\
    Report.backend report = "✅ Running" /\
    Report.database report =
      match imported with
      | inl e => import_failure_text e
      | inr None => "⚠️  Available but not initialized"
      | inr (Some db) =>
          match db_name db, db_list_collection_names db with
          | Some (inl e), _ => import_failure_text e
          | _, inl e => "⚠️  Connected but Error: " +:+ str_take 50 (str_exn e)
          | _, inr _ => "✅ Connected & Working"
          end
      end.
Proof.
  unfold get_test, test_database, test_database_body, import_failure_text.
  destruct imported as [e | [[[[e | n] |] [e' | cs]] |]];
    cbv beta iota delta [try_except bind ret raise modify db_name db_list_collection_names];
    try destruct (is_ImportError e);
    eexists; repeat split; reflexivity.
Qed.

(** * The theorems at concrete requests *)

Lemma upload_disallowed_type_rejected_witness :
  upload_media Fake.host Fake.notes "Notes" None (Fake.world true) =
    (inl (HTTPException 400 "Only images and videos are allowed"), Fake.world true).
Proof.
  apply (upload_disallowed_type_rejected Fake.host Fake.notes "Notes" None
           (Fake.world true) "text/plain"); reflexivity.
Defined.

Lemma upload_missing_type_rejected_witness :
  classify (effective_content_type Fake.untyped) = Other /\
  upload_media Fake.host Fake.untyped "Blob" None (Fake.world true) =
    (inl (HTTPException 400 "Only images and videos are allowed"), Fake.world true).
Proof.
  destruct (upload_missing_type_rejected Fake.host Fake.untyped "Blob" None
              (Fake.world true)) as (_ & Hk & Hrun); [reflexivity |].
  split; [exact Hk | exact Hrun].
Defined.

Lemma upload_metadata_failure_witness :
  exists w',
    upload_media Fake.host Fake.photo "Front yard" None (Fake.world false) =
      (inl (HTTPException 500 "Database error: connection refused"), w') /\
    fs w' !! stored_path Fake.host Fake.photo = None.
Proof.
  destruct (upload_metadata_failure_cleans_up Fake.host Fake.photo "Front yard" None
              (Fake.world false) (Exception "connection refused")
              (snd (save_metadata Fake.host
                      (draft Fake.host Fake.photo "Front yard" None (Fake.world false))
                      (written Fake.host Fake.photo (Fake.world false)))))
    as (w' & Hrun & _ & Hgone & _).
  - vm_compute. discriminate.
  - reflexivity.
  - reflexivity.
  - vm_compute. reflexivity.
  - exists w'. split; [exact Hrun | apply Hgone; reflexivity].
Defined.

Lemma upload_size_is_length_on_disk_witness :
  exists u w',
    upload_media Fake.host Fake.photo "Front yard" None (Fake.world true) = (inr u, w') /\
    UploadFile.size Fake.photo = Some 99999 /\
    Media.size (Uploaded.item u) = 10.
Proof.
  destruct (upload_media Fake.host Fake.photo "Front yard" None (Fake.world true))
    as [[e | u] w'] eqn:E.
  { vm_compute in E. discriminate E. }
  exists u, w'. split; [reflexivity |]. split; [reflexivity |].
  destruct (upload_size_is_length_on_disk Fake.host _ _ _ _ _ _ E)
    as (bytes & _ & -> & Hsize & _).
  exact Hsize.
Defined.

Lemma persisted_kind_image_or_video_witness :
  exists evs,
    trace (snd (upload_media Fake.host Fake.photo "Front yard" None (Fake.world true)))
      = evs ++ [] /\
    forall c m, In (EvCreateDocument c m) evs -> Media.kind m = Image.
Proof.
  destruct (upload_media Fake.host Fake.photo "Front yard" None (Fake.world true))
    as [r w'] eqn:E.
  destruct (persisted_kind_image_or_video Fake.host _ _ _ _ _ _ E) as (_ & evs & Ht & Hev).
  exists evs. split; [exact Ht |].
  intros c m Hin. destruct (Hev c m Hin) as (_ & _ & _ & _ & Himg).
  apply Himg. reflexivity.
Defined.


Lemma persisted_title_nonempty_witness :
  exists evs,
    trace (snd (post_api_media Fake.host
                  (mkForm (Some Fake.photo) (Some "Front yard") None) (Fake.world true)))
      = evs ++ [] /\
    forall c m, In (EvCreateDocument c m) evs -> Media.title m = "Front yard".
Proof.
  destruct (post_api_media Fake.host
              (mkForm (Some Fake.photo) (Some "Front yard") None) (Fake.world true))
    as [resp w'] eqn:E.
  destruct (persisted_title_nonempty Fake.host _ _ _ _ E) as (evs & Ht & Hev).
  exists evs. split; [exact Ht |].
  intros c m Hin. destruct (Hev c m Hin) as (Ht' & _).
  cbn in Ht'. congruence.
Defined.


Lemma listing_truthy_ids_become_strings_witness :
  exists l w',
    list_media Fake.host 100 Fake.shelf
      = (inr (Listed.mk (map (normalize_id Fake.host) l)), w') /\
    Permutation [Fake.stamped "0a" 1; Fake.stamped "0c" 3; Fake.stamped "0b" 2] l /\
    normalize_id Fake.host (Fake.stamped "0a" 1) !! "_id" = Some (VStr "0a").
Proof.
  destruct (listing_truthy_ids_become_strings Fake.host 100 Fake.shelf
              [Fake.stamped "0a" 1; Fake.stamped "0c" 3; Fake.stamped "0b" 2]
              (Fake.mk [Fake.stamped "0a" 1; Fake.stamped "0c" 3; Fake.stamped "0b" 2] true))
    as (l & w' & Hrun & Hperm & Hid & _).
  - reflexivity.
  - reflexivity.
  - exists l, w'. split; [exact Hrun |]. split; [exact Hperm |].
    apply (Hid (Fake.stamped "0a" 1)).
    apply (Permutation_in _ Hperm). left. reflexivity.
Defined.

(** A document without [created_at] makes the sort raise, and the listing
    still answers 200 with both documents. *)
Example listing_tolerates_missing_timestamp :
  fst (list_sort created_at true [Fake.stamped "0a" 1; Fake.bare])
    = inl (TypeError "'<' not supported between instances") /\
  fst (get_api_media Fake.host 100 Fake.unstamped)
    = Ok200 (Listed.mk (map (normalize_id Fake.host) [Fake.stamped "0a" 1; Fake.bare])).
Proof. split; vm_compute; reflexivity. Qed.

(** C9, the counterexample: a fetched document whose [_id] is the integer
    0 is returned with that integer, not with a string. *)
Lemma listing_zero_id_stays_integer :
  exists items w',
    list_media Fake.host 100 Fake.legacy = (inr (Listed.mk items), w') /\
    items = [Fake.zero_id] /\
    Fake.zero_id !! "_id" = Some (VInt 0) /\
    ids_are_strings items = false.
Proof.
  eexists. eexists. split; [vm_compute; reflexivity |].
  split; [vm_compute; reflexivity |].
  split; vm_compute; reflexivity.
Qed.

(** * More of the handlers *)

(** ** Strings, paths and tokens *)

Lemma str_app_assoc a b c : (a +:+ b) +:+ c = a +:+ (b +:+ c).
Proof.
  induction a as [| x a IH]; [reflexivity |].
  change (String x ((a +:+ b) +:+ c) = String x (a +:+ (b +:+ c))).
  f_equal. exact IH.
Qed.

Lemma str_app_length a b :
  String.length (a +:+ b) = (String.length a + String.length b)%nat.
Proof.
  induction a as [| x a IH]; [reflexivity |].
  change (S (String.length (a +:+ b)) = S (String.length a + String.length b)).
  f_equal. exact IH.
Qed.

Lemma str_app_inj a a' b b' :
  String.length a = String.length a' -> a +:+ b = a' +:+ b' -> a = a' /\ b = b'.
Proof.
  revert a'. induction a as [| x a IH]; intros [| x' a'] Hl E; try discriminate Hl.
  - split; [reflexivity | exact E].
  - change (String x (a +:+ b) = String x' (a' +:+ b')) in E.
    injection E as -> E. injection Hl as Hl.
    destruct (IH a' Hl E) as [-> ->]. split; reflexivity.
Qed.

Lemma str_has_app c a b : str_has c (a +:+ b) = str_has c a || str_has c b.
Proof.
  induction a as [| x a IH]; [reflexivity |].
  change (Ascii.eqb x c || str_has c (a +:+ b)
          = Ascii.eqb x c || str_has c a || str_has c b).
  rewrite IH. apply orb_assoc.
Qed.

Lemma str_has_drop c n s : str_has c s = false -> str_has c (str_drop n s) = false.
Proof.
  revert s. induction n as [| n IH]; intros [| a s] Hs; try exact Hs.
  cbn [str_drop]. apply IH. cbn [str_has] in Hs.
  apply orb_false_iff in Hs. tauto.
Qed.

Lemma str_drop_drop n m s : str_drop (n + m) s = str_drop m (str_drop n s).
Proof.
  revert s. induction n as [| n IH]; intros s; [reflexivity |].
  destruct s as [| a s]; cbn [Nat.add str_drop].
  - destruct m; reflexivity.
  - apply IH.
Qed.

Lemma str_drop_app a b n :
  str_drop (String.length a + n) (a +:+ b) = str_drop n b.
Proof.
  induction a as [| x a IH]; [reflexivity |]. exact IH.
Qed.

(** [rfind] answers -1 or an index of the string. *)
Lemma rfind_from_range c s i :
  0 <= i ->
  rfind_from c s i = -1 \/ i <= rfind_from c s i < i + Z.of_nat (String.length s).
Proof.
  revert i. induction s as [| a s IH]; intros i Hi; [left; reflexivity |].
  cbn [rfind_from String.length].
  destruct (IH (i + 1) ltac:(lia)) as [E | R].
  - rewrite E. cbn. destruct (Ascii.eqb a c); [right; lia | left; reflexivity].
  - destruct (0 <=? rfind_from c s (i + 1)) eqn:P; [right; lia |].
    apply Z.leb_gt in P. lia.
Qed.

Lemma rfind_from_none c s i :
  0 <= i -> rfind_from c s i = -1 -> str_has c s = false.
Proof.
  revert i. induction s as [| a s IH]; intros i Hi; [reflexivity |].
  cbn [rfind_from str_has].
  destruct (rfind_from_range c s (i + 1) ltac:(lia)) as [E | R].
  - rewrite E. cbn. destruct (Ascii.eqb a c); [lia |].
    intros _. apply (IH (i + 1)); [lia | exact E].
  - destruct (0 <=? rfind_from c s (i + 1)) eqn:P; [lia |].
    apply Z.leb_gt in P. lia.
Qed.

(** At the index [rfind] answers stands the last occurrence. *)
Lemma rfind_from_found c s i :
  0 <= i -> i <= rfind_from c s i ->
  exists rest,
    str_drop (Z.to_nat (rfind_from c s i - i)) s = String c rest /\
    str_has c rest = false.
Proof.
  revert i. induction s as [| a s IH]; intros i Hi; cbn [rfind_from]; [lia |].
  destruct (rfind_from_range c s (i + 1) ltac:(lia)) as [E | R].
  - rewrite E. cbn. destruct (Ascii.eqb a c) eqn:Eq; [| lia].
    intros _. apply Ascii.eqb_eq in Eq. subst a.
    rewrite Z.sub_diag. exists s. split; [reflexivity |].
    apply (rfind_from_none c s (i + 1)); [lia | exact E].
  - destruct (0 <=? rfind_from c s (i + 1)) eqn:P; [| apply Z.leb_gt in P; lia].
    intros _. destruct (IH (i + 1) ltac:(lia) ltac:(lia)) as (rest & Hd & Hr).
    exists rest. split; [| exact Hr].
    replace (Z.to_nat (rfind_from c s (i + 1) - i))
      with (S (Z.to_nat (rfind_from c s (i + 1) - (i + 1)))) by lia.
    exact Hd.
Qed.

Lemma splitext_ext_cases p :
  snd (splitext p) = "" \/
  exists rest,
    snd (splitext p) = String "." rest /\
    str_has "." rest = false /\ str_has "/" rest = false.
Proof.
  unfold splitext.
  destruct (rfind p "/" <? rfind p ".") eqn:Hlt; [| left; reflexivity].
  destruct (splitext_loop p _ _); cbn [andb snd]; [| left; reflexivity].
  right. apply Z.ltb_lt in Hlt. unfold rfind in *.
  pose proof (rfind_from_range "/" p 0 ltac:(lia)) as Hsep.
  destruct (rfind_from_found "." p 0 ltac:(lia) ltac:(lia)) as (rest & Hd & Hr).
  rewrite Z.sub_0_r in Hd. exists rest. split; [exact Hd |]. split; [exact Hr |].
  assert (Hno : str_has "/" (String "." rest) = false).
  { rewrite <- Hd. destruct Hsep as [E | R].
    - apply str_has_drop. apply (rfind_from_none "/" p 0); [lia | exact E].
    - destruct (rfind_from_found "/" p 0 ltac:(lia) ltac:(lia)) as (tail & Ht & Hn).
      rewrite Z.sub_0_r in Ht.
      replace (Z.to_nat (rfind_from "." p 0))
        with (Z.to_nat (rfind_from "/" p 0)
              + S (Z.to_nat (rfind_from "." p 0 - rfind_from "/" p 0 - 1)))%nat by lia.
      rewrite str_drop_drop, Ht. cbn [str_drop]. apply str_has_drop, Hn. }
  cbn [str_has] in Hno. apply orb_false_iff in Hno. tauto.
Qed.

(** X7. The extension [os.path.splitext] returns is empty, or a dot
    followed by characters among which there is neither a dot nor a
    slash. *)
Theorem splitext_ext_shape p :
  snd (splitext p) = "" \/
  exists rest,
    snd (splitext p) = String "." rest /\
    str_has "." rest = false /\ str_has "/" rest = false.
Proof. exact (splitext_ext_cases p). Qed.

Lemma hex_val_digit d : 0 <= d < 16 -> hex_val (hex_digit d) = d.
Proof.
  intros Hd. assert (E : d = Z.of_nat (Z.to_nat d)) by lia.
  assert (Hn : (Z.to_nat d < 16)%nat) by lia.
  rewrite E at 2. unfold hex_digit. generalize dependent (Z.to_nat d). clear.
  intros n _ Hn. do 16 (destruct n as [| n]; [reflexivity |]). lia.
Qed.

Lemma hex_fixed_app n z acc : hex_fixed n z acc = hex_fixed n z "" +:+ acc.
Proof.
  revert z acc. induction n as [| n IH]; intros z acc; [reflexivity |].
  cbn [hex_fixed]. rewrite (IH _ (String _ acc)), (IH _ (String _ "")).
  rewrite str_app_assoc. reflexivity.
Qed.

(** Distinct numbers below [16 ^ n] print as distinct digit strings. *)
Lemma hex_fixed_inj n z z' :
  0 <= z < 16 ^ Z.of_nat n -> 0 <= z' < 16 ^ Z.of_nat n ->
  hex_fixed n z "" = hex_fixed n z' "" -> z = z'.
Proof.
  revert z z'. induction n as [| n IH]; intros z z' Hz Hz' E.
  - cbn in Hz, Hz'. lia.
  - cbn [hex_fixed] in E.
    rewrite (hex_fixed_app n (z / 16)), (hex_fixed_app n (z' / 16)) in E.
    apply str_app_inj in E; [| rewrite !hex_fixed_length; reflexivity].
    destruct E as [Eh Ed]. injection Ed as Ed.
    replace (16 ^ Z.of_nat (S n)) with (16 * 16 ^ Z.of_nat n) in Hz, Hz'
      by (rewrite Nat2Z.inj_succ, Z.pow_succ_r; lia).
    assert (Hq : z / 16 = z' / 16).
    { apply IH; [| | exact Eh].
      - split; [apply Z.div_pos; lia | apply Z.div_lt_upper_bound; lia].
      - split; [apply Z.div_pos; lia | apply Z.div_lt_upper_bound; lia]. }
    assert (Hr : z mod 16 = z' mod 16).
    { rewrite <- (hex_val_digit (z mod 16)) by (apply Z.mod_pos_bound; lia).
      rewrite <- (hex_val_digit (z' mod 16)) by (apply Z.mod_pos_bound; lia).
      rewrite Ed. reflexivity. }
    rewrite (Z.div_mod z 16), (Z.div_mod z' 16) by lia. rewrite Hq, Hr. reflexivity.
Qed.

Lemma uuid4_hex_inj r r' : uuid4_hex r = uuid4_hex r' -> uuid4_int r = uuid4_int r'.
Proof.
  unfold uuid4_hex. apply hex_fixed_inj.
  - pose proof (uuid4_int_range r). change (16 ^ Z.of_nat 32) with (2 ^ 128). lia.
  - pose proof (uuid4_int_range r'). change (16 ^ Z.of_nat 32) with (2 ^ 128). lia.
Qed.

Lemma is_hex_not_slash s :
  forallb is_hex (list_ascii_of_string s) = true -> str_has "/" s = false.
Proof.
  induction s as [| a s IH]; [reflexivity |].
  cbn [list_ascii_of_string forallb str_has].
  intros Hs. apply andb_true_iff in Hs. destruct Hs as [Ha Hs].
  rewrite (IH Hs), orb_false_r.
  destruct (Ascii.eqb a "/") eqn:E; [| reflexivity].
  apply Ascii.eqb_eq in E. subst a. discriminate Ha.
Qed.

Lemma startswith_slash_has s : startswith s "/" = true -> str_has "/" s = true.
Proof.
  unfold startswith. destruct s as [| a s]; [discriminate |].
  cbn [String.prefix str_has]. destruct (ascii_dec "/" a) as [<- |]; [| discriminate].
  reflexivity.
Qed.

Section Names.
Context (host : Host).

Lemma choose_ext_no_slash file k : str_has "/" (choose_ext file k) = false.
Proof.
  unfold choose_ext.
  destruct (splitext_ext_cases (opt_str_or (UploadFile.filename file) ""))
    as [-> | (rest & -> & _ & Hs)].
  - cbn [str_or]. destruct (kind_eqb k Video); reflexivity.
  - cbn [str_or str_has]. exact Hs.
Qed.

Lemma stored_name_no_slash file : str_has "/" (stored_name host file) = false.
Proof.
  unfold stored_name, make_unique_name. rewrite str_has_app, choose_ext_no_slash.
  rewrite is_hex_not_slash; [reflexivity |].
  unfold uuid4_hex. apply hex_fixed_is_hex. reflexivity.
Qed.

(** The upload directory is [cwd] and [uploads], and ends with neither a
    slash nor nothing. *)
Lemma UPLOAD_DIR_shape :
  exists prefix, UPLOAD_DIR host = prefix +:+ "uploads".
Proof.
  unfold UPLOAD_DIR, path_join. cbn [startswith String.prefix].
  destruct (ascii_dec "/" "u"); [discriminate |].
  destruct (_ || _).
  - exists (cwd host). reflexivity.
  - exists (cwd host +:+ "/"). rewrite str_app_assoc. reflexivity.
Qed.

(** X8. The file of an upload lands directly in the upload directory: its
    stored name holds no slash, whatever the client's file name, and its
    path is the directory, a slash and that name. *)
Theorem stored_path_inside_upload_dir file :
  str_has "/" (stored_name host file) = false /\
  stored_path host file = UPLOAD_DIR host +:+ "/" +:+ stored_name host file.
Proof.
  split; [apply stored_name_no_slash |].
  unfold stored_path, path_join.
  destruct (startswith (stored_name host file) "/") eqn:Hs.
  { apply startswith_slash_has in Hs. rewrite stored_name_no_slash in Hs. discriminate. }
  destruct UPLOAD_DIR_shape as [prefix ->].
  assert (E1 : String.eqb (prefix +:+ "uploads") "" = false).
  { destruct prefix; reflexivity. }
  assert (E2 : endswith_slash (prefix +:+ "uploads") = false).
  { unfold endswith_slash. rewrite str_app_length.
    replace (String.length prefix + String.length "uploads" - 1)%nat
      with (String.length prefix + 6)%nat by (cbn; lia).
    rewrite str_drop_app. reflexivity. }
  rewrite E1, E2. reflexivity.
Qed.

End Names.

(** X9. Two uploads get the same stored name only if their tokens are the
    same 128-bit number and their extensions are the same: no choice of
    file names makes two different tokens collide. *)
Theorem stored_name_collision host1 host2 file1 file2 :
  stored_name host1 file1 = stored_name host2 file2 ->
  uuid4_int (urandom16 host1) = uuid4_int (urandom16 host2) /\
  choose_ext file1 (classify (effective_content_type file1))
    = choose_ext file2 (classify (effective_content_type file2)).
Proof.
  unfold stored_name, make_unique_name. intros E.
  apply str_app_inj in E.
  - destruct E as [Et Ee]. split; [apply uuid4_hex_inj, Et | exact Ee].
  - unfold uuid4_hex. rewrite !hex_fixed_length. reflexivity.
Qed.

(** ** The upload handler: failures of the file system, frame, response *)

Section MoreUpload.
Context {Store : Type} `{Database Store} (host : Host).

Lemma cleanup_frame path (w : World Store) :
  environ (snd (cleanup host path w)) = environ w /\
  forall p, p <> path -> fs (snd (cleanup host path w)) !! p = fs w !! p.
Proof.
  unfold cleanup. run. cbn [fs environ store trace].
  destruct (remove_fault host path) as [e |]; cbn; [auto |].
  destruct (fs w !! path) eqn:E; cbn; [| auto].
  split; [reflexivity |]. intros p Hp. apply lookup_delete_ne. congruence.
Qed.

(** The five ways a call of [upload_media] ends. *)
Lemma upload_media_cases file title description (w : World Store) :
  let path := stored_path host file in
  let out := upload_media host file title description w in
  (classify (effective_content_type file) = Other /\
   out = (inl (HTTPException 400 "Only images and videos are allowed"), w)) \/
  (exists e, open_fault host path = Some e /\ out = (inl (wrap500 e), w)) \/
  (exists n e,
     write_fault host path = Some (n, e) /\
     out = (inl (wrap500 e),
            mkWorld (<[path := take n (UploadFile.payload file)]> (fs w))
                    (environ w) (store w) (EvWrite path :: trace w))) \/
  (exists e w2,
     save_metadata host (draft host file title description w) (written host file w)
       = (inl e, w2) /\
     out = (inl (HTTPException 500 ("Database error: " +:+ str_exn e)),
            snd (cleanup host path w2))) \/
  (exists i m w2,
     save_metadata host (draft host file title description w) (written host file w)
       = (inr (i, m), w2) /\
     out = (inr (Uploaded.mk i "Uploaded" m), w2)).
Proof.
  intros path out. subst out.
  destruct (classify (effective_content_type file)) eqn:Hk.
  3: { left. split; [reflexivity |]. apply upload_media_Other, Hk. }
  all: right.
  all: assert (Hk' : classify (effective_content_type file) <> Other) by congruence.
  all: clear Hk.
  all: destruct (open_fault host path) as [e |] eqn:Ho;
    [left; exists e; split; [reflexivity |];
     apply upload_media_open_fails; assumption |].
  all: right.
  all: destruct (write_fault host path) as [[n e] |] eqn:Hw;
    [left; exists n, e; split; [reflexivity |];
     apply upload_media_write_fails; assumption |].
  all: right.
  all: rewrite upload_media_written by assumption.
  all: destruct (save_metadata host _ _) as [[e | [i m]] w2] eqn:Hs.
  all: try (left; exists e, w2; split; reflexivity).
  all: right; exists i, m, w2; split; reflexivity.
Qed.

(** X1. When [open] refuses the destination the upload answers 500 with
    the text of the error, and nothing has changed: no file, no call of
    the store, no call of [os.remove]. *)
Theorem upload_open_failure_changes_nothing file title description (w : World Store) e :
  classify (effective_content_type file) <> Other ->
  open_fault host (stored_path host file) = Some e ->
  is_HTTPException e = false ->
  upload_media host file title description w = (inl (HTTPException 500 (str_exn e)), w).
Proof.
  intros Hk Ho He. rewrite (upload_media_open_fails host _ _ _ _ e Hk Ho).
  unfold wrap500. rewrite He. reflexivity.
Qed.

(** X2. When the write fails after [n] bytes the upload answers 500 with
    the text of the error and the truncated file stays on disk: the
    handler removes the file only when the metadata step fails, so here
    [os.remove] is not called, nor is the store. *)
Theorem upload_write_failure_leaves_partial_file file title description
    (w : World Store) n e :
  classify (effective_content_type file) <> Other ->
  open_fault host (stored_path host file) = None ->
  write_fault host (stored_path host file) = Some (n, e) ->
  is_HTTPException e = false ->
  exists w',
    upload_media host file title description w = (inl (HTTPException 500 (str_exn e)), w') /\
    fs w' !! stored_path host file = Some (take n (UploadFile.payload file)) /\
    trace w' = EvWrite (stored_path host file) :: trace w /\
    store w' = store w.
Proof.
  intros Hk Ho Hw He. eexists. split.
  { rewrite (upload_media_write_fails host _ _ _ _ n e Hk Ho Hw).
    unfold wrap500. rewrite He. reflexivity. }
  cbn [fs trace store]. split; [apply lookup_insert_eq | split; reflexivity].
Qed.

(** X3. Whatever the outcome, an upload leaves the environment and every
    file other than its own untouched; when it succeeds the file system
    is the old one with the payload under the new path, and the calls
    made are one write and one insert: [os.remove] is not called. *)
Theorem upload_touches_only_its_file file title description (w : World Store) r w' :
  upload_media host file title description w = (r, w') ->
  environ w' = environ w /\
  (forall p, p <> stored_path host file -> fs w' !! p = fs w !! p) /\
  (forall u, r = inr u ->
     fs w' = <[stored_path host file := UploadFile.payload file]> (fs w) /\
     trace w' = EvCreateDocument "media" (Uploaded.item u)
                  :: EvWrite (stored_path host file) :: trace w).
Proof.
  intros Hrun.
  destruct (upload_media_cases file title description w)
    as [[_ E] | [(e & _ & E) | [(n & e & _ & E) | [(e & w2 & Hs & E) | (i & m & w2 & Hs & E)]]]];
    rewrite E in Hrun; apply pair_equal_spec in Hrun; destruct Hrun as [<- <-].
  - split; [reflexivity | split; [reflexivity | discriminate]].
  - split; [reflexivity | split; [reflexivity | discriminate]].
  - cbn [environ fs]. split; [reflexivity | split; [| discriminate]].
    intros p Hp. apply lookup_insert_ne. congruence.
  - destruct (save_metadata_frame host _ _ _ _ Hs) as (Hfs & Henv & _).
    destruct (cleanup_frame (stored_path host file) w2) as (Ce & Cf).
    split; [rewrite Ce, Henv; reflexivity |].
    split; [| discriminate].
    intros p Hp. rewrite (Cf p Hp), Hfs. unfold written. cbn [fs].
    apply lookup_insert_ne. congruence.
  - destruct (save_metadata_frame host _ _ _ _ Hs) as (Hfs & Henv & _).
    destruct (save_metadata_inr host _ _ _ _ _ Hs) as (-> & _ & _ & Ht).
    split; [rewrite Henv; reflexivity |].
    split.
    + intros p Hp. rewrite Hfs. unfold written. cbn [fs].
      apply lookup_insert_ne. congruence.
    + intros u [= <-]. cbn [Uploaded.item]. split; [exact Hfs | exact Ht].
Qed.

(** X4. A failed upload always ends in an [HTTPException], never in
    another exception; and when the errors of the file system are not
    themselves [HTTPException]s its status is 400 or 500. *)
Theorem upload_failure_is_http file title description (w : World Store) e w' :
  upload_media host file title description w = (inl e, w') ->
  exists c d,
    e = HTTPException c d /\
    ((forall e0, open_fault host (stored_path host file) = Some e0 ->
        is_HTTPException e0 = false) ->
     (forall n e0, write_fault host (stored_path host file) = Some (n, e0) ->
        is_HTTPException e0 = false) ->
     c = 400 \/ c = 500).
Proof.
  intros Hrun.
  destruct (upload_media_cases file title description w)
    as [[_ E] | [(e1 & Ho & E) | [(n & e1 & Hw & E) | [(e1 & w2 & _ & E) | (i & m & w2 & _ & E)]]]];
    rewrite E in Hrun; apply pair_equal_spec in Hrun; destruct Hrun as [Hr _].
  - injection Hr as <-. eexists _, _. split; [reflexivity | auto].
  - injection Hr as <-. unfold wrap500. destruct e1; cbn;
      eexists _, _; (split; [reflexivity |]); intros H1 _;
      try (right; reflexivity).
    specialize (H1 _ Ho). discriminate H1.
  - injection Hr as <-. unfold wrap500. destruct e1; cbn;
      eexists _, _; (split; [reflexivity |]); intros _ H2;
      try (right; reflexivity).
    specialize (H2 _ _ Hw). discriminate H2.
  - injection Hr as <-. eexists _, _. split; [reflexivity | auto].
  - discriminate Hr.
Qed.

(** X5. The item of a successful upload has as its URL the configured
    [PUBLIC_BACKEND_URL] (nothing when it is unset or empty) followed by
    [/uploads/] and the stored file name, and the response's message is
    [Uploaded]. *)
Theorem upload_url_and_message file title description (w : World Store) u w' :
  upload_media host file title description w = (inr u, w') ->
  Media.url (Uploaded.item u) =
    opt_str_or (environ w !! "PUBLIC_BACKEND_URL") ""
      +:+ "/uploads/" +:+ Media.filename (Uploaded.item u) /\
  Uploaded.message u = "Uploaded".
Proof.
  intros Hrun.
  destruct (upload_media_inr host _ _ _ _ _ _ Hrun) as (_ & _ & _ & Hs & Hm).
  destruct (save_metadata_inr host _ _ _ _ _ Hs) as (-> & _).
  split; [| exact Hm].
  cbn [draft Media.url Media.filename]. unfold public_url.
  destruct (String.eqb _ "") eqn:E; [| reflexivity].
  apply String.eqb_eq in E. rewrite E. reflexivity.
Qed.

(** X6. Every record a request to the upload route hands to the store
    carries the description the client sent, or [None] when the client
    sent none or an empty one: an empty description is never stored. *)
Theorem persisted_description_never_empty form (w : World Store) resp w' :
  post_api_media host form w = (resp, w') ->
  exists evs,
    trace w' = evs ++ trace w /\
    forall c m, In (EvCreateDocument c m) evs ->
      Media.description m = form_value (form_description form) /\
      Media.description m <> Some "".
Proof.
  unfold post_api_media. intros Hrun.
  destruct (form_file form) as [file |].
  2: { pair_inv Hrun. exists []. split; [reflexivity | intros ? ? []]. }
  destruct (form_value (form_title form)) as [title |].
  2: { pair_inv Hrun. exists []. split; [reflexivity | intros ? ? []]. }
  destruct (upload_media host file title _ w) as [r w1] eqn:Hup.
  pair_inv Hrun.
  destruct (upload_media_creates host _ _ _ _ _ _ Hup) as (evs & Ht & Hev).
  exists evs. split; [exact Ht |].
  intros c m Hin. destruct (Hev c m Hin) as (_ & _ & ->).
  cbn [draft Media.description]. split; [reflexivity |].
  destruct (form_description form) as [[| a d] |]; discriminate.
Qed.

End MoreUpload.

(** ** [list.sort]: stability *)

Lemma filter_none {A : Type} (f : A -> bool) l :
  (forall z, In z l -> f z = false) -> List.filter f l = [].
Proof.
  induction l as [| a l IH]; intros Hf; [reflexivity |].
  cbn [List.filter]. rewrite (Hf a) by (left; reflexivity).
  apply IH. intros z Hz. apply Hf. right. exact Hz.
Qed.

Section SortStable.
Context {A : Type} (key : A -> pyval).

Lemma stamped_at_above t x y :
  stamp_le key x y -> stamped_at key t y = true ->
  forall tx, key x = VDatetime tx -> tx <= t.
Proof.
  unfold stamp_le, stamped_at. intros Hle Hy tx Hx. rewrite Hx in Hle.
  destruct (key y); try contradiction. apply Z.eqb_eq in Hy. lia.
Qed.

(** An element goes behind the elements of the run that carry its
    timestamp. *)
Lemma insort_stable t x run r :
  dated key x -> List.Forall (dated key) run -> StronglySorted (stamp_le key) run ->
  insort key x run = inr r ->
  List.filter (stamped_at key t) r =
    List.filter (stamped_at key t) run ++ List.filter (stamped_at key t) [x].
Proof.
  intros [tx Hx]. revert r. induction run as [| y ys IH]; intros r Hd Hs; cbn [insort].
  - intros [= <-]. reflexivity.
  - apply List.Forall_cons_iff in Hd. destruct Hd as [[ty Hy] Hd].
    apply StronglySorted_inv in Hs. destruct Hs as [Hs Hall].
    rewrite Hx, Hy. cbn [py_lt]. destruct (tx <? ty) eqn:Hlt.
    + intros [= <-]. apply Z.ltb_lt in Hlt.
      destruct (stamped_at key t x) eqn:Sx.
      2: { cbn [List.filter]. rewrite Sx. rewrite app_nil_r. reflexivity. }
      assert (Et : tx = t).
      { unfold stamped_at in Sx. rewrite Hx in Sx. apply Z.eqb_eq in Sx. exact Sx. }
      assert (Hnone : List.filter (stamped_at key t) (y :: ys) = []).
      { apply filter_none. intros z Hz.
        destruct (stamped_at key t z) eqn:Sz; [| reflexivity]. exfalso.
        assert (Hyz : ty <= t).
        { destruct Hz as [<- | Hz].
          - unfold stamped_at in Sz. rewrite Hy in Sz. apply Z.eqb_eq in Sz. lia.
          - rewrite List.Forall_forall in Hall.
            apply (stamped_at_above t y z (Hall z Hz) Sz ty Hy). }
        lia. }
      rewrite Hnone. cbn [List.filter] in Hnone |- *. rewrite Sx, Hnone. reflexivity.
    + destruct (insort key x ys) as [e | r'] eqn:E; [discriminate |].
      intros [= <-]. cbn [List.filter].
      rewrite (IH r' Hd Hs eq_refl).
      destruct (stamped_at key t y); reflexivity.
Qed.

Lemma sort_pass_stable t run todo l :
  List.Forall (dated key) run -> List.Forall (dated key) todo ->
  StronglySorted (stamp_le key) run ->
  sort_pass key run todo = (inr tt, l) ->
  List.filter (stamped_at key t) l =
    List.filter (stamped_at key t) run ++ List.filter (stamped_at key t) todo.
Proof.
  revert run. induction todo as [| x rest IH]; intros run Hr Ht Hs; cbn [sort_pass].
  - intros [= <-]. rewrite app_nil_r. reflexivity.
  - apply List.Forall_cons_iff in Ht. destruct Ht as [Hx Ht].
    destruct (insort_dated key x run Hx Hr Hs) as (run' & E & Hs').
    rewrite E. intros Hl.
    assert (Hr' : List.Forall (dated key) run').
    { apply List.Forall_forall. intros z Hz.
      apply (Permutation_in _ (Permutation_sym (insort_perm key _ _ _ E))) in Hz.
      destruct Hz as [<- | Hz]; [exact Hx | rewrite List.Forall_forall in Hr; auto]. }
    rewrite (IH run' Hr' Ht Hs' Hl).
    rewrite (insort_stable t x run run' Hx Hr Hs E).
    rewrite <- app_assoc. cbn [List.filter].
    destruct (stamped_at key t x); reflexivity.
Qed.

(** With a timestamp on every element, [sort(reverse=True)] keeps the
    elements of one timestamp in the order they had. *)
Lemma list_sort_stable t l :
  List.Forall (dated key) l ->
  List.filter (stamped_at key t) (snd (list_sort key true l))
    = List.filter (stamped_at key t) l.
Proof.
  intros Hd. unfold list_sort.
  assert (Hrev : List.Forall (dated key) (rev l)).
  { apply List.Forall_forall. intros z Hz. apply List.in_rev in Hz.
    rewrite List.Forall_forall in Hd. auto. }
  destruct (sort_pass_dated key [] (rev l)) as (s & E & Hs);
    [constructor | exact Hrev | constructor |].
  rewrite E. cbn [snd].
  rewrite List.filter_rev.
  rewrite (sort_pass_stable t [] (rev l) s) by (try assumption; constructor).
  cbn [List.filter app]. rewrite List.filter_rev, rev_involutive. reflexivity.
Qed.

End SortStable.

(** ** The listing handler: failures, frame, fields *)

Section MoreListing.
Context {Store : Type} `{Database Store} (host : Host).

Lemma normalize_id_other it k :
  k <> "_id" -> normalize_id host it !! k = it !! k.
Proof.
  intros Hk. unfold normalize_id. destruct (truthy _); [| reflexivity].
  apply lookup_insert_ne. congruence.
Qed.

(** X10. When the import of [database] or the call of [get_documents]
    raises [e], the listing answers 500 with [Failed to list media: ]
    followed by the text of [e]. *)
Theorem listing_failure_is_500 limit (w : World Store) e st' :
  (import_fault host "database" = Some e /\ st' = store w) \/
  (import_fault host "database" = None /\
   get_documents "media" ∅ limit (store w) = (inl e, st')) ->
  list_media host limit w =
    (inl (HTTPException 500 ("Failed to list media: " +:+ str_exn e)),
     mkWorld (fs w) (environ w) st' (trace w)).
Proof.
  unfold list_media, import, call_get_documents.
  intros [[Hi ->] | [Hi Hg]]; rewrite Hi;
    cbv beta iota delta [try_except bind ret raise].
  - destruct w; reflexivity.
  - rewrite Hg. reflexivity.
Qed.

(** X11. The listing is read-only outside the store: in every outcome the
    files, the environment and the trace of outside calls are what they
    were, and a failure is always an [HTTPException] of status 500. *)
Theorem listing_is_read_only limit (w : World Store) r w' :
  list_media host limit w = (r, w') ->
  fs w' = fs w /\ environ w' = environ w /\ trace w' = trace w /\
  (forall e, r = inl e -> exists d, e = HTTPException 500 d).
Proof.
  unfold list_media, import, call_get_documents.
  destruct (import_fault host "database") as [e |];
    cbv beta iota delta [try_except bind ret raise].
  - intros Hrun. pair_inv Hrun. repeat split. intros e' [= <-]. eexists. reflexivity.
  - destruct (get_documents "media" ∅ limit (store w)) as [[e | items] st'];
      intros Hrun; pair_inv Hrun; cbn [fs environ trace]; repeat split.
    + intros e' [= <-]. eexists. reflexivity.
    + discriminate.
Qed.

(** X12. When the store holds nothing to list the listing answers 200
    with an empty list of items. *)
Theorem listing_of_nothing_is_empty limit (w : World Store) st' :
  import_fault host "database" = None ->
  get_documents "media" ∅ limit (store w) = (inr [], st') ->
  get_api_media host limit w =
    (Ok200 (Listed.mk []), mkWorld (fs w) (environ w) st' (trace w)).
Proof.
  intros Hi Hg. unfold get_api_media.
  rewrite (list_media_fetched host limit w [] st' Hi Hg). reflexivity.
Qed.

(** X13. The listing returns as many documents as were fetched, and each
    returned document is a fetched one in which at most [_id] has
    changed: every other key holds what the store returned. *)
Theorem listing_keeps_other_fields limit (w : World Store) items0 st' :
  import_fault host "database" = None ->
  get_documents "media" ∅ limit (store w) = (inr items0, st') ->
  exists l w',
    list_media host limit w = (inr (Listed.mk (map (normalize_id host) l)), w') /\
    Permutation items0 l /\
    length (map (normalize_id host) l) = length items0 /\
    forall it k, k <> "_id" -> normalize_id host it !! k = it !! k.
Proof.
  intros Hi Hg.
  exists (snd (list_sort created_at true items0)). eexists.
  split; [apply (list_media_fetched host limit w items0 st' Hi Hg) |].
  split; [apply list_sort_perm |].
  split; [| intros it k; apply normalize_id_other].
  rewrite length_map. symmetry. apply Permutation_length, list_sort_perm.
Qed.

(** X14. When every fetched document carries a timestamp, documents with
    the same [created_at] are listed in the order the store returned
    them. *)
Theorem listing_is_stable limit (w : World Store) items0 st' :
  import_fault host "database" = None ->
  get_documents "media" ∅ limit (store w) = (inr items0, st') ->
  (forall it, In it items0 -> has_timestamp it) ->
  exists l w',
    list_media host limit w = (inr (Listed.mk (map (normalize_id host) l)), w') /\
    forall t,
      List.filter (stamped_at created_at t) l
        = List.filter (stamped_at created_at t) items0.
Proof.
  intros Hi Hg Hall.
  exists (snd (list_sort created_at true items0)). eexists.
  split; [apply (list_media_fetched host limit w items0 st' Hi Hg) |].
  intros t. apply list_sort_stable.
  apply List.Forall_forall. intros it Hin. destruct (Hall it Hin) as [t' Ht].
  exists t'. unfold created_at. rewrite Ht. reflexivity.
Qed.

(** X15. Normalizing an identifier twice is normalizing it once: a
    document that went through the listing comes out of it unchanged. *)
Theorem normalize_id_idempotent it :
  normalize_id host (normalize_id host it) = normalize_id host it.
Proof.
  unfold normalize_id at 2 3.
  destruct (truthy (default VNone (it !! "_id"))) eqn:T.
  - set (s := py_str (str_datetime host) (default VNone (it !! "_id"))).
    unfold normalize_id. rewrite lookup_insert_eq.
    change (default VNone (Some (VStr s))) with (VStr s).
    destruct (truthy (VStr s)); [| reflexivity].
    cbn [py_str]. apply insert_insert_eq.
  - unfold normalize_id. rewrite T. reflexivity.
Qed.

End MoreListing.

(** ** Diagnostics: what the report tells *)

(** X16. The report's [database_url] and [database_name] say only whether
    the two environment variables are set to something non-empty: what the
    handler stored there from the database handle is overwritten, and two
    environments that agree on which variables are set give the same
    report, whatever the values. *)
Theorem diagnostics_flags_from_env_only (imported : exn + option DbHandle)
    (environ : gmap string string) :
  exists report,
    test_database imported environ = inr report /\
    Report.database_url report
      = Some (if env_set environ "DATABASE_URL" then "✅ Set" else "❌ Not Set") /\
    Report.database_name report
      = Some (if env_set environ "DATABASE_NAME" then "✅ Set" else "❌ Not Set") /\
    forall environ',
      env_set environ' "DATABASE_URL" = env_set environ "DATABASE_URL" ->
      env_set environ' "DATABASE_NAME" = env_set environ "DATABASE_NAME" ->
      test_database imported environ' = inr report.
Proof.
  unfold test_database, test_database_body.
  destruct imported as [e | [[[[e | n] |] [e' | cs]] |]];
    cbv beta iota delta [try_except bind ret raise modify db_name db_list_collection_names];
    try destruct (is_ImportError e);
    eexists; (split; [reflexivity |]); (split; [reflexivity |]);
    (split; [reflexivity |]); intros environ' -> ->; reflexivity.
Qed.

(** X17. The report says [Connected] exactly when the import bound a
    handle whose [name] could be read, also when listing the collections
    then failed; and it names at most ten collections, the first ten the
    handle listed, and none unless the listing succeeded. *)
Theorem diagnostics_connection_and_collections (imported : exn + option DbHandle)
    (environ : gmap string string) :
  exists report,
    test_database imported environ = inr report /\
    (length (Report.collections report) <= 10)%nat /\
    Report.connection_status report =
      match imported with
      | inr (Some db) =>
          match db_name db with
          | Some (inl _) => "Not Connected"
          | _ => "Connected"
          end
      | _ => "Not Connected"
      end /\
    Report.collections report =
      match imported with
      | inr (Some db) =>
          match db_name db, db_list_collection_names db with
          | Some (inl _), _ => []
          | _, inr names => take 10 names
          | _, inl _ => []
          end
      | _ => []
      end.
Proof.
  unfold test_database, test_database_body.
  destruct imported as [e | [[[[e | n] |] [e' | cs]] |]];
    cbv beta iota delta [try_except bind ret raise modify db_name db_list_collection_names];
    try destruct (is_ImportError e);
    eexists; (split; [reflexivity |]);
    (split; [cbn [Report.collections Report.set_collections Report.set_database
                  Report.set_database_url Report.set_database_name
                  Report.set_connection_status initial_report length];
             rewrite ?length_take; lia |]);
    split; reflexivity.
Qed.

(** ** The further theorems at concrete requests *)

Lemma upload_open_failure_changes_nothing_witness :
  upload_media Faults.locked Fake.photo "Front yard" None (Fake.world true) =
    (inl (HTTPException 500 "Permission denied"), Fake.world true).
Proof.
  apply (upload_open_failure_changes_nothing Faults.locked Fake.photo "Front yard" None
           (Fake.world true) (OSError "Permission denied")).
  - vm_compute. discriminate.
  - reflexivity.
  - reflexivity.
Defined.

Lemma upload_write_failure_leaves_partial_file_witness :
  exists w',
    upload_media Faults.full Fake.photo "Front yard" None (Fake.world true) =
      (inl (HTTPException 500 "No space left on device"), w') /\
    fs w' !! stored_path Faults.full Fake.photo = Some (repeat Byte.x2a 4).
Proof.
  destruct (upload_write_failure_leaves_partial_file Faults.full Fake.photo "Front yard"
              None (Fake.world true) 4%nat (OSError "No space left on device"))
    as (w' & Hrun & Hfile & _).
  - vm_compute. discriminate.
  - reflexivity.
  - reflexivity.
  - reflexivity.
  - exists w'. split; [exact Hrun | exact Hfile].
Defined.

Lemma upload_touches_only_its_file_witness :
  exists u w',
    upload_media Fake.host Fake.photo "Front yard" None (Fake.world true) = (inr u, w') /\
    fs w' = {[stored_path Fake.host Fake.photo := Fake.ten_bytes]}.
Proof.
  destruct (upload_media Fake.host Fake.photo "Front yard" None (Fake.world true))
    as [[e | u] w'] eqn:E.
  { vm_compute in E. discriminate E. }
  exists u, w'. split; [reflexivity |].
  destruct (upload_touches_only_its_file Fake.host _ _ _ _ _ _ E) as (_ & _ & Hok).
  destruct (Hok u eq_refl) as [Hfs _]. exact Hfs.
Defined.

Lemma upload_failure_is_http_witness :
  exists e w',
    upload_media Fake.host Fake.notes "Notes" None (Fake.world true) = (inl e, w') /\
    exists c d, e = HTTPException c d /\ (c = 400 \/ c = 500).
Proof.
  destruct (upload_media Fake.host Fake.notes "Notes" None (Fake.world true))
    as [[e | u] w'] eqn:E.
  2: { vm_compute in E. discriminate E. }
  exists e, w'. split; [reflexivity |].
  destruct (upload_failure_is_http Fake.host _ _ _ _ _ _ E) as (c & d & He & Hc).
  exists c, d. split; [exact He |].
  apply Hc; intros; discriminate.
Defined.

Lemma upload_url_and_message_witness :
  exists u w',
    upload_media Fake.host Fake.photo "Front yard" None (Fake.world true) = (inr u, w') /\
    Media.url (Uploaded.item u) = "/uploads/" +:+ Media.filename (Uploaded.item u).
Proof.
  destruct (upload_media Fake.host Fake.photo "Front yard" None (Fake.world true))
    as [[e | u] w'] eqn:E.
  { vm_compute in E. discriminate E. }
  exists u, w'. split; [reflexivity |].
  destruct (upload_url_and_message Fake.host _ _ _ _ _ _ E) as [Hurl _]. exact Hurl.
Defined.

Lemma persisted_description_never_empty_witness :
  exists evs,
    trace (snd (post_api_media Fake.host
                  (mkForm (Some Fake.photo) (Some "Front yard") (Some ""))
                  (Fake.world true)))
      = evs ++ [] /\
    forall c m, In (EvCreateDocument c m) evs -> Media.description m = None.
Proof.
  destruct (post_api_media Fake.host
              (mkForm (Some Fake.photo) (Some "Front yard") (Some "")) (Fake.world true))
    as [resp w'] eqn:E.
  destruct (persisted_description_never_empty Fake.host _ _ _ _ E) as (evs & Ht & Hev).
  exists evs. split; [exact Ht |].
  intros c m Hin. destruct (Hev c m Hin) as [Hd _]. exact Hd.
Defined.

Lemma stored_name_collision_witness :
  urandom16 Fake.host <> urandom16 Faults.twin /\
  uuid4_int (urandom16 Fake.host) = uuid4_int (urandom16 Faults.twin).
Proof.
  split; [vm_compute; discriminate |].
  apply (stored_name_collision Fake.host Faults.twin Fake.photo Fake.photo).
  vm_compute. reflexivity.
Defined.

Lemma listing_failure_is_500_witness :
  list_media Fake.host 100 (Fake.world false) =
    (inl (HTTPException 500 "Failed to list media: connection refused"), Fake.world false).
Proof.
  apply (listing_failure_is_500 Fake.host 100 (Fake.world false)
           (Exception "connection refused") (Fake.mk [] false)).
  right. split; reflexivity.
Defined.

Lemma listing_is_read_only_witness :
  trace (snd (list_media Fake.host 100 Fake.shelf)) = [] /\
  fs (snd (list_media Fake.host 100 Fake.shelf)) = ∅.
Proof.
  destruct (list_media Fake.host 100 Fake.shelf) as [r w'] eqn:E.
  destruct (listing_is_read_only Fake.host _ _ _ _ E) as (Hfs & _ & Ht & _).
  split; [exact Ht | exact Hfs].
Defined.

Lemma listing_of_nothing_is_empty_witness :
  get_api_media Fake.host 100 (Fake.world true) = (Ok200 (Listed.mk []), Fake.world true).
Proof.
  apply (listing_of_nothing_is_empty Fake.host 100 (Fake.world true) (Fake.mk [] true));
    reflexivity.
Defined.

Lemma listing_keeps_other_fields_witness :
  exists l w',
    list_media Fake.host 100 Fake.shelf
      = (inr (Listed.mk (map (normalize_id Fake.host) l)), w') /\
    length (map (normalize_id Fake.host) l) = 3%nat.
Proof.
  destruct (listing_keeps_other_fields Fake.host 100 Fake.shelf
              [Fake.stamped "0a" 1; Fake.stamped "0c" 3; Fake.stamped "0b" 2]
              (Fake.mk [Fake.stamped "0a" 1; Fake.stamped "0c" 3; Fake.stamped "0b" 2] true))
    as (l & w' & Hrun & _ & Hlen & _).
  - reflexivity.
  - reflexivity.
  - exists l, w'. split; [exact Hrun | exact Hlen].
Defined.

Lemma listing_is_stable_witness :
  exists l w',
    list_media Fake.host 100 Faults.ties
      = (inr (Listed.mk (map (normalize_id Fake.host) l)), w') /\
    List.filter (stamped_at created_at 2) l = [Fake.stamped "0b" 2; Fake.stamped "0c" 2].
Proof.
  destruct (listing_is_stable Fake.host 100 Faults.ties
              [Fake.stamped "0a" 1; Fake.stamped "0b" 2; Fake.stamped "0c" 2;
               Fake.stamped "0d" 3]
              (Fake.mk [Fake.stamped "0a" 1; Fake.stamped "0b" 2; Fake.stamped "0c" 2;
                        Fake.stamped "0d" 3] true))
    as (l & w' & Hrun & Hst).
  - reflexivity.
  - reflexivity.
  - intros it [<- | [<- | [<- | [<- | []]]]]; eexists; reflexivity.
  - exists l, w'. split; [exact Hrun |]. rewrite (Hst 2). reflexivity.
Defined.

Lemma diagnostics_flags_from_env_only_witness :
  test_database (inr None) {["DATABASE_URL" := "mongodb://one"]}
    = test_database (inr None) {["DATABASE_URL" := "mongodb://two"]}.
Proof.
  destruct (diagnostics_flags_from_env_only (inr None) {["DATABASE_URL" := "mongodb://one"]})
    as (report & Hrun & _ & _ & Hsame).
  rewrite Hrun. symmetry. apply Hsame; reflexivity.
Defined.
